(** * provider-kafka: the Topic controller

    A shallow embedding of [internal/controller/topic/topic.go] and the
    properties of its four reconciliation methods.

    The adapter is glue between two libraries (crossplane-runtime and
    franz-go).  Every call that leaves the file is an [Event] answered by
    the environment; a method is a finite tree of such calls ([Prog]),
    threaded through the managed resource its [mg] argument points to.
    A Go run-time panic (index out of range, nil dereference) is the
    [Panic] leaf of the tree. *)

From stdpp Require Import base strings gmap list pretty.
From Stdlib Require Import ZArith Lia.

Local Open Scope Z_scope.
Local Open Scope string_scope.

(** ** Errors: github.com/pkg/errors and kerr *)

Inductive error : Type :=
| kerr_Error (Code : Z) (Message : string)
    (* one of the *kerr.Error values of franz-go, compared by identity *)
| foreign_Error (text : string)
    (* an error value built by a library (Kubernetes, JSON, kgo) *)
| errors_New (msg : string)
    (* errors.New and errors.Errorf *)
| errors_Wrap (cause : error) (msg : string).
    (* errors.Wrap on a non-nil cause *)

#[global] Instance error_eq_dec : EqDecision error.
Proof. solve_decision. Defined.

(** errors.Is: [err] or one of the causes it wraps is [target]. *)
Fixpoint errors_Is_chain (err target : error) : bool :=
  if decide (err = target) then true
  else match err with
       | errors_Wrap cause _ => errors_Is_chain cause target
       | _ => false
       end.

Definition errors_Is (err : option error) (target : error) : bool :=
  match err with
  | None => false
  | Some e => errors_Is_chain e target
  end.

(** kerr.UnknownTopicOrPartition (Kafka error code 3). *)
Definition UnknownTopicOrPartition : error :=
  kerr_Error 3 "UNKNOWN_TOPIC_OR_PARTITION".

Definition errNotTopic : string := "managed resource is not a Topic custom resource".
Definition errTrackPCUsage : string := "cannot track ProviderConfig usage".
Definition errGetPC : string := "cannot get ProviderConfig".
Definition errGetCreds : string := "cannot get credentials".
Definition errNewClient : string := "cannot create new Kafka client".

(** ** Go integers *)

(** int32(x) and int16(x) on a Go int: the low bits, read as signed. *)
Definition int32 (x : Z) : Z := (x + 2 ^ 31) mod 2 ^ 32 - 2 ^ 31.
Definition int16 (x : Z) : Z := (x + 2 ^ 15) mod 2 ^ 16 - 2 ^ 15.

(** len of a slice, as a Go int. *)
Definition len {A} (l : list A) : Z := Z.of_nat (length l).

(** ** Credentials and client options (franz-go) *)

Record KafkaSASL := {
  Mechanism : string;
  Username : string;
  Password : string
}.

Record KafkaConfig := {
  Brokers : list string;
  SASL : option KafkaSASL
}.

(** plain.Auth{User, Pass}.AsMechanism() *)
Record plain_Auth := { User : string; Pass : string }.

Inductive sasl_Mechanism : Type :=
| plain_AsMechanism (a : plain_Auth).

Inductive kgo_Opt : Type :=
| kgo_SeedBrokers (seeds : list string)
| kgo_SASL (m : sasl_Mechanism).

(** Handles on objects owned by the libraries. *)
Inductive kgo_Client := kgoClient (id : nat).
Inductive kadm_Client := kadm_NewClient (c : kgo_Client).
Inductive client_Client := kubeClient (id : nat).
Inductive resource_Tracker := usageTracker (id : nat).
Inductive logging_Logger := logger (id : nat).

(** ** kadm results *)

Definition TopicID := list Byte.byte.

Record PartitionDetail := {
  Replicas : list Z
}.

(** The adapter reads [len(t.Partitions)] and [t.Partitions[0]], and
    [len(resp)] and [resp[0]] of the create and delete responses: the three
    collections are taken as slices. *)
Record TopicDetail := {
  TD_ID : TopicID;
  TD_Partitions : list PartitionDetail;
  TD_Err : option error
}.

Record CreateTopicResponse := {
  CT_ID : TopicID;
  CT_Err : option error
}.

Record DeleteTopicResponse := {
  DT_Err : option error
}.

(** ** ProviderConfig *)

Record CommonCredentialSelectors := {
  Fs : option string;
  Env : option string;
  SecretRef : option string
}.

Record ProviderCredentials := {
  Source : string;
  Selectors : CommonCredentialSelectors
}.

Record ProviderConfig := {
  PC_Credentials : ProviderCredentials
}.

Definition ProviderConfig_zero : ProviderConfig :=
  {| PC_Credentials :=
       {| Source := "";
          Selectors := {| Fs := None; Env := None; SecretRef := None |} |} |}.

(** ** Results handed back to the reconciler *)

Record ExternalObservation := {
  ResourceExists : bool;
  ResourceUpToDate : bool
}.

Definition ExternalObservation_zero : ExternalObservation :=
  {| ResourceExists := false; ResourceUpToDate := false |}.

Record ExternalCreation := {
  ExternalNameAssigned : bool
}.

Definition ExternalCreation_zero : ExternalCreation :=
  {| ExternalNameAssigned := false |}.

Record ExternalUpdate := {
  ConnectionDetails : list (string * list Byte.byte)
}.

Definition ExternalUpdate_zero : ExternalUpdate :=
  {| ConnectionDetails := [] |}.

(** How a run of Go code ends. *)
Inductive Outcome (R : Type) : Type :=
| Returned (r : R)
| Panicked (msg : string).

Arguments Returned {R} r.
Arguments Panicked {R} msg.

(** ** What the adapter takes from crossplane-runtime and kadm as given

    The condition type, [v1.Available()], [SetConditions] and
    [TopicID.String()] are library code; the adapter only passes their
    values along. *)

Class Library := {
  Condition : Type;
  Available : Condition;
  SetConditions : list Condition -> list Condition -> list Condition;
  TopicID_String : TopicID -> string
}.

Section Adapter.

Context {lib : Library}.

(** ** The Topic custom resource *)

Record Reference := { RefName : string }.

Record TopicParameters := {
  ReplicationFactor : Z;
  Partitions : Z
}.

Record TopicSpec := {
  ProviderConfigReference : option Reference;
  ForProvider : TopicParameters
}.

Record TopicObservation := { ID : string }.

Record TopicStatus := {
  Conditions : list Condition;
  AtProvider : TopicObservation
}.

Record Topic := {
  Annotations : gmap string string;
  Spec : TopicSpec;
  Status : TopicStatus
}.

(** resource.Managed: a *v1alpha1.Topic, or anything else. *)
Inductive Managed : Type :=
| ManagedTopic (cr : Topic)
| ManagedOther (kind : string).

(** meta.GetExternalName: the crossplane.io/external-name annotation. *)
Definition GetExternalName (cr : Topic) : string :=
  default "" (Annotations cr !! "crossplane.io/external-name").

Definition set_AtProvider_ID (cr : Topic) (id : string) : Topic :=
  {| Annotations := Annotations cr;
     Spec := Spec cr;
     Status := {| Conditions := Conditions (Status cr);
                  AtProvider := {| ID := id |} |} |}.

Definition Status_SetConditions (cr : Topic) (cs : list Condition) : Topic :=
  {| Annotations := Annotations cr;
     Spec := Spec cr;
     Status := {| Conditions := SetConditions (Conditions (Status cr)) cs;
                  AtProvider := AtProvider (Status cr) |} |}.

(** ** Calls into the libraries *)

Inductive Event : Type -> Type :=
| json_Unmarshal (data : list Byte.byte) : Event (KafkaConfig * option error)
| kgo_NewClient (opts : list kgo_Opt) : Event (kgo_Client * option error)
| usage_Track (u : resource_Tracker) (mg : Managed) : Event (option error)
| kube_Get (k : client_Client) (name : string) : Event (ProviderConfig * option error)
| CommonCredentialExtractor (source : string) (k : client_Client)
    (sel : CommonCredentialSelectors) : Event (list Byte.byte * option error)
| ListTopics (cl : option kadm_Client) (topics : list string)
    : Event (gmap string TopicDetail * option error)
| CreateTopics (cl : option kadm_Client) (partitions : Z) (replicationFactor : Z)
    (configs : option (gmap string (option string))) (topics : list string)
    : Event (list CreateTopicResponse * option error)
| DeleteTopics (cl : option kadm_Client) (topics : list string)
    : Event (list DeleteTopicResponse * option error)
| log_Info (l : logging_Logger) (msg : string) : Event unit.

(** A run of Go code: it returns, panics, or calls out and goes on with
    the answer. *)
Inductive Prog (R : Type) : Type :=
| Ret (r : R)
| Panic (msg : string)
| Vis {X : Type} (e : Event X) (k : X -> Prog R).

Arguments Ret {R} r.
Arguments Panic {R} msg.
Arguments Vis {R X} e k.

Fixpoint bind {A B} (p : Prog A) (f : A -> Prog B) : Prog B :=
  match p with
  | Ret r => f r
  | Panic msg => Panic msg
  | Vis e k => Vis e (fun x => bind (k x) f)
  end.

Definition call {X} (e : Event X) : Prog X := Vis e Ret.

(** s[i] on a slice. *)
Definition index {A} (s : list A) (i : nat) : Prog A :=
  match s !! i with
  | Some x => Ret x
  | None => Panic "index out of range"
  end.

(** p.f on a pointer. *)
Definition deref {A} (p : option A) : Prog A :=
  match p with
  | Some x => Ret x
  | None => Panic "nil pointer dereference"
  end.

#[local] Instance Prog_ret : MRet Prog := @Ret.
#[local] Instance Prog_bind : MBind Prog := fun A B f p => bind p f.

(** A method body runs against the object its [mg] argument points to
    and hands that object back next to its Go results. *)
Definition Method (R : Type) : Type := Managed -> Prog (R * Managed).

(** ** newKafkaClient (topic.go, lines 55-77) *)

Definition newKafkaClient (data : list Byte.byte)
  : Prog (option kadm_Client * option error) :=
  '(kc, err) ← call (json_Unmarshal data);
  match err with
  | Some e => Ret (None, Some (errors_Wrap e "cannot parse credentials"))
  | None =>
    let opts := [kgo_SeedBrokers (Brokers kc)] in
    let opts :=
      match SASL kc with
      | Some sasl =>
          (opts ++ [kgo_SASL (plain_AsMechanism
                      {| User := Username sasl; Pass := Password sasl |})])%list
      | None => opts
      end in
    '(c, err) ← call (kgo_NewClient opts);
    match err with
    | Some e => Ret (None, Some e)
    | None => Ret (Some (kadm_NewClient c), None)
    end
  end.

(** ** connector and Connect (lines 117-156) *)

Record connector := {
  kube : client_Client;
  usage : resource_Tracker;
  log : logging_Logger;
  newServiceFn : list Byte.byte -> Prog (option kadm_Client * option error)
}.

Record external := {
  kafkaClient : option kadm_Client;
  ext_log : logging_Logger
}.

(** The connector Setup registers (lines 100-104). *)
Definition Setup_connector (k : client_Client) (u : resource_Tracker)
    (l : logging_Logger) : connector :=
  {| kube := k; usage := u; log := l; newServiceFn := newKafkaClient |}.

Definition Connect (c : connector) : Method (option external * option error) :=
  fun mg =>
  match mg with
  | ManagedOther _ => Ret ((None, Some (errors_New errNotTopic)), mg)
  | ManagedTopic cr =>
    err ← call (usage_Track (usage c) mg);
    match err with
    | Some e => Ret ((None, Some (errors_Wrap e errTrackPCUsage)), mg)
    | None =>
      ref ← deref (ProviderConfigReference (Spec cr));
      '(pc, err) ← call (kube_Get (kube c) (RefName ref));
      match err with
      | Some e => Ret ((None, Some (errors_Wrap e errGetPC)), mg)
      | None =>
        let cd := PC_Credentials pc in
        '(data, err) ← call (CommonCredentialExtractor (Source cd) (kube c) (Selectors cd));
        match err with
        | Some e => Ret ((None, Some (errors_Wrap e errGetCreds)), mg)
        | None =>
          '(svc, err) ← newServiceFn c data;
          match err with
          | Some e => Ret ((None, Some (errors_Wrap e errNewClient)), mg)
          | None =>
            Ret ((Some {| kafkaClient := svc; ext_log := log c |}, None), mg)
          end
        end
      end
    end
  end.

(** ** Observe (lines 165-197) *)

Definition Observe (c : external) : Method (ExternalObservation * option error) :=
  fun mg =>
  match mg with
  | ManagedOther _ =>
      Ret ((ExternalObservation_zero, Some (errors_New errNotTopic)), mg)
  | ManagedTopic cr =>
    '(td, err) ← call (ListTopics (kafkaClient c) [GetExternalName cr]);
    match err with
    | Some e => Ret ((ExternalObservation_zero, Some e), mg)
    | None =>
      match td !! GetExternalName cr with
      | None =>
          Ret (({| ResourceExists := false; ResourceUpToDate := false |}, None), mg)
      | Some t =>
        if errors_Is (TD_Err t) UnknownTopicOrPartition then
          Ret (({| ResourceExists := false; ResourceUpToDate := false |}, None), mg)
        else
          let cr := set_AtProvider_ID cr (TopicID_String (TD_ID t)) in
          let cr := Status_SetConditions cr [Available] in
          let upToDate := true in
          let upToDate :=
            if bool_decide (len (TD_Partitions t) ≠ Partitions (ForProvider (Spec cr)))
            then false else upToDate in
          differs ←
            (if bool_decide (len (TD_Partitions t) > 0) then
               p0 ← index (TD_Partitions t) 0;
               Ret (bool_decide (len (Replicas p0)
                                 ≠ ReplicationFactor (ForProvider (Spec cr))))
             else Ret false);
          let upToDate := if (differs : bool) then false else upToDate in
          Ret (({| ResourceExists := true; ResourceUpToDate := upToDate |}, None),
               ManagedTopic cr)
      end
    end
  end.

(** ** Create (lines 199-219) *)

Definition Create (c : external) : Method (ExternalCreation * option error) :=
  fun mg =>
  match mg with
  | ManagedOther _ =>
      Ret ((ExternalCreation_zero, Some (errors_New errNotTopic)), mg)
  | ManagedTopic cr =>
    '(resp, err) ← call (CreateTopics (kafkaClient c)
                           (int32 (Partitions (ForProvider (Spec cr))))
                           (int16 (ReplicationFactor (ForProvider (Spec cr))))
                           None [GetExternalName cr]);
    match err with
    | Some e => Ret ((ExternalCreation_zero, Some e), mg)
    | None =>
      if bool_decide (len resp ≠ 1) then
        Ret ((ExternalCreation_zero,
              Some (errors_New ("unexpected number of createTopicResponse "
                                +:+ pretty (len resp)))), mg)
      else
        r0 ← index resp 0;
        match CT_Err r0 with
        | Some e =>
            Ret ((ExternalCreation_zero, Some (errors_Wrap e "create failed")), mg)
        | None =>
            r0 ← index resp 0;
            let cr := set_AtProvider_ID cr (TopicID_String (CT_ID r0)) in
            Ret ((ExternalCreation_zero, None), ManagedTopic cr)
        end
    end
  end.

(** ** Update (lines 221-225) *)

Definition Update (c : external) : Method (ExternalUpdate * option error) :=
  fun mg =>
  _ ← call (log_Info (ext_log c) "topic updates not supported yet!");
  Ret ((ExternalUpdate_zero, None), mg).

(** ** Delete (lines 227-245)

    The two [errors.Errorf] / [errors.Wrap] calls of lines 238 and 241
    are expression statements: their values are dropped. *)

Definition Delete (c : external) : Method (option error) :=
  fun mg =>
  match mg with
  | ManagedOther _ => Ret (Some (errors_New errNotTopic), mg)
  | ManagedTopic cr =>
    '(resp, err) ← call (DeleteTopics (kafkaClient c) [GetExternalName cr]);
    match err with
    | Some e => Ret (Some e, mg)
    | None =>
      let _ :=
        if bool_decide (len resp ≠ 1) then
          Some (errors_New ("unexpected number of deleteTopicResponse "
                            +:+ pretty (len resp)))
        else None in
      r0 ← index resp 0;
      let _ :=
        match DT_Err r0 with
        | Some e => Some (errors_Wrap e "delete failed")
        | None => None
        end in
      Ret (None, mg)
    end
  end.

(** ** Running a method against an environment

    The environment answers each call and moves to its next state; a run
    yields the outcome, the environment's final state and the calls made,
    in order, with their answers. *)

Definition handler (W : Type) : Type := forall X, Event X -> W -> X * W.

Record Interaction := Called {
  answer_type : Type;
  event : Event answer_type;
  answer : answer_type
}.

Fixpoint run {W R} (h : handler W) (p : Prog R) (w : W)
  : Outcome R * W * list Interaction :=
  match p with
  | Ret r => (Returned r, w, [])
  | Panic msg => (Panicked msg, w, [])
  | Vis e k =>
      let '(x, w1) := h _ e w in
      let '(o, w2, tr) := run h (k x) w1 in
      (o, w2, Called _ e x :: tr)
  end.

Definition outcome_of {W R} (r : Outcome R * W * list Interaction) : Outcome R :=
  r.1.1.

Definition trace_of {W R} (r : Outcome R * W * list Interaction)
  : list Interaction := r.2.

(** The calls that reach the Kafka cluster. *)
Definition is_kafka_call (i : Interaction) : bool :=
  match event i with
  | kgo_NewClient _ | ListTopics _ _ | CreateTopics _ _ _ _ _ | DeleteTopics _ _ => true
  | _ => false
  end.

Definition kafka_calls (tr : list Interaction) : list Interaction :=
  List.filter is_kafka_call tr.

(** The error, if any, a library call answered with. *)
Definition answer_error (i : Interaction) : option error :=
  match event i in Event X return X -> option error with
  | json_Unmarshal _ => snd
  | kgo_NewClient _ => snd
  | usage_Track _ _ => fun err => err
  | kube_Get _ _ => snd
  | CommonCredentialExtractor _ _ _ => snd
  | ListTopics _ _ => snd
  | CreateTopics _ _ _ _ _ => snd
  | DeleteTopics _ _ => snd
  | log_Info _ _ => fun _ => None
  end (answer i).

Definition library_errors (tr : list Interaction) : list error :=
  omap answer_error tr.

(** The messages the adapter wraps a library error with. *)
Definition static_messages : list string :=
  [errTrackPCUsage; errGetPC; errGetCreds; errNewClient;
   "cannot parse credentials"; "create failed"].

(** [wrapped_static e0 err]: [err] is [e0] under one or more errors.Wrap
    layers, each with a static message. *)
Inductive wrapped_static (e0 : error) : error -> Prop :=
| wrapped_once msg :
    msg ∈ static_messages -> wrapped_static e0 (errors_Wrap e0 msg)
| wrapped_again e msg :
    wrapped_static e0 e -> msg ∈ static_messages ->
    wrapped_static e0 (errors_Wrap e msg).

(** ** A scripted environment

    Every call is answered from a fixed table; the state counts the calls
    answered so far. *)

Record Script := {
  on_Unmarshal : KafkaConfig * option error;
  on_NewClient : kgo_Client * option error;
  on_Track : option error;
  on_Get : ProviderConfig * option error;
  on_Extract : list Byte.byte * option error;
  on_List : gmap string TopicDetail * option error;
  on_Create : list CreateTopicResponse * option error;
  on_Delete : list DeleteTopicResponse * option error
}.

Definition scripted (s : Script) : handler nat :=
  fun X e n =>
    (match e in Event X return X with
     | json_Unmarshal _ => on_Unmarshal s
     | kgo_NewClient _ => on_NewClient s
     | usage_Track _ _ => on_Track s
     | kube_Get _ _ => on_Get s
     | CommonCredentialExtractor _ _ _ => on_Extract s
     | ListTopics _ _ => on_List s
     | CreateTopics _ _ _ _ _ => on_Create s
     | DeleteTopics _ _ => on_Delete s
     | log_Info _ _ => tt
     end, S n).

(** A cluster on which every call succeeds and nothing is found. *)
Definition quiet : Script :=
  {| on_Unmarshal := ({| Brokers := ["kafka:9092"]; SASL := None |}, None);
     on_NewClient := (kgoClient 0, None);
     on_Track := None;
     on_Get := (ProviderConfig_zero, None);
     on_Extract := ([], None);
     on_List := (∅, None);
     on_Create := ([], None);
     on_Delete := ([], None) |}.

Definition with_List (s : Script) (r : gmap string TopicDetail * option error)
  : Script :=
  {| on_Unmarshal := on_Unmarshal s; on_NewClient := on_NewClient s;
     on_Track := on_Track s; on_Get := on_Get s; on_Extract := on_Extract s;
     on_List := r; on_Create := on_Create s; on_Delete := on_Delete s |}.

Definition with_Create (s : Script) (r : list CreateTopicResponse * option error)
  : Script :=
  {| on_Unmarshal := on_Unmarshal s; on_NewClient := on_NewClient s;
     on_Track := on_Track s; on_Get := on_Get s; on_Extract := on_Extract s;
     on_List := on_List s; on_Create := r; on_Delete := on_Delete s |}.

Definition with_Delete (s : Script) (r : list DeleteTopicResponse * option error)
  : Script :=
  {| on_Unmarshal := on_Unmarshal s; on_NewClient := on_NewClient s;
     on_Track := on_Track s; on_Get := on_Get s; on_Extract := on_Extract s;
     on_List := on_List s; on_Create := on_Create s; on_Delete := r |}.

Definition with_Unmarshal (s : Script) (r : KafkaConfig * option error)
  : Script :=
  {| on_Unmarshal := r; on_NewClient := on_NewClient s;
     on_Track := on_Track s; on_Get := on_Get s; on_Extract := on_Extract s;
     on_List := on_List s; on_Create := on_Create s; on_Delete := on_Delete s |}.

(** A Topic named [name] asking for [partitions] partitions replicated
    [replicationFactor] times, not yet observed. *)
Definition a_topic (name : string) (partitions replicationFactor : Z) : Topic :=
  {| Annotations := {[ "crossplane.io/external-name" := name ]};
     Spec := {| ProviderConfigReference := Some {| RefName := "default" |};
                ForProvider := {| ReplicationFactor := replicationFactor;
                                  Partitions := partitions |} |};
     Status := {| Conditions := []; AtProvider := {| ID := "" |} |} |}.

Definition an_external : external :=
  {| kafkaClient := Some (kadm_NewClient (kgoClient 0)); ext_log := logger 0 |}.

End Adapter.

Arguments Ret {lib R} r.
Arguments Panic {lib R} msg.
Arguments Vis {lib R X} e k.

(** A stand-in for the library functions, for running examples: a
    condition is its reason, [SetConditions] keeps the new ones in front,
    and a topic id prints as its length. *)
Definition example_library : Library :=
  {| Condition := string;
     Available := "Available";
     SetConditions := fun old new => (new ++ old)%list;
     TopicID_String := fun id => pretty (len id) |}.

(** A listed partition with [n] replicas. *)
Definition partition_with (n : nat) : PartitionDetail :=
  {| Replicas := List.map Z.of_nat (seq 0 n) |}.

(** ** Example inputs *)

(** The Topic "orders" with the given desired partition count and
    replication factor. *)
Definition orders (partitions replicationFactor : Z) : @Topic example_library :=
  a_topic "orders" partitions replicationFactor.

(** A listing in which "orders" has the given partitions. *)
Definition listing (parts : list PartitionDetail) : Script :=
  with_List quiet
    ({[ "orders" := {| TD_ID := []; TD_Partitions := parts; TD_Err := None |} ]},
     None).

(** A listing whose entry for "orders" carries the unknown-topic error,
    as a cause under another message. *)
Definition listing_unknown : Script :=
  with_List quiet
    ({[ "orders" := {| TD_ID := []; TD_Partitions := [];
                       TD_Err := Some (errors_Wrap UnknownTopicOrPartition
                                         "metadata") |} ]},
     None).

(** Two create responses, and one that succeeds with a 16-byte id. *)
Definition created : CreateTopicResponse :=
  {| CT_ID := replicate 16 Byte.x00; CT_Err := None |}.

(** A listing call that fails as a whole. *)
Definition connection_refused : error :=
  foreign_Error "dial tcp 10.0.0.1:9092: connect: connection refused".

Definition listing_fails : Script :=
  with_List quiet (∅, Some connection_refused).

(** A delete call whose single response carries an error. *)
Definition not_controller : error := kerr_Error 41 "NOT_CONTROLLER".

Definition delete_refused : Script :=
  with_Delete quiet ([{| DT_Err := Some not_controller |}], None).

(** Credentials with a SASL block that names another mechanism. *)
Definition scram_credentials : KafkaConfig :=
  {| Brokers := ["kafka:9092"];
     SASL := Some {| Mechanism := "SCRAM-SHA-512";
                     Username := "admin";
                     Password := "secret" |} |}.

Definition with_scram : Script :=
  with_Unmarshal quiet (scram_credentials, None).

(** ** Names of the library calls, and more scripts *)

(** The library function a call is made to. *)
Definition call_name {lib : Library} (i : Interaction) : string :=
  match event i with
  | json_Unmarshal _ => "json.Unmarshal"
  | kgo_NewClient _ => "kgo.NewClient"
  | usage_Track _ _ => "usage.Track"
  | kube_Get _ _ => "kube.Get"
  | CommonCredentialExtractor _ _ _ => "resource.CommonCredentialExtractor"
  | ListTopics _ _ => "kadm.ListTopics"
  | CreateTopics _ _ _ _ _ => "kadm.CreateTopics"
  | DeleteTopics _ _ => "kadm.DeleteTopics"
  | log_Info _ _ => "log.Info"
  end.

(** What Connect returns when its call [i] answered with the error [e0]:
    the message of lines 136, 141, 147 and 152, over the one of line 59
    for a parse error. *)
Definition Connect_wraps {lib : Library} (i : Interaction) (e0 : error) : error :=
  match event i with
  | usage_Track _ _ => errors_Wrap e0 errTrackPCUsage
  | kube_Get _ _ => errors_Wrap e0 errGetPC
  | CommonCredentialExtractor _ _ _ => errors_Wrap e0 errGetCreds
  | json_Unmarshal _ =>
      errors_Wrap (errors_Wrap e0 "cannot parse credentials") errNewClient
  | kgo_NewClient _ => errors_Wrap e0 errNewClient
  | _ => e0
  end.

(** A listing whose entry for "orders" is the unknown-topic error itself,
    with no partitions. *)
Definition unknown_orders : Script :=
  with_List quiet
    ({[ "orders" := {| TD_ID := []; TD_Partitions := [];
                       TD_Err := Some UnknownTopicOrPartition |} ]},
     None).

(** The calls of a successful Connect, in order. *)
Definition Connect_calls : list string :=
  ["usage.Track"; "kube.Get"; "resource.CommonCredentialExtractor";
   "json.Unmarshal"; "kgo.NewClient"].

(** Credentials that do not parse. *)
Definition bad_json : error := foreign_Error "unexpected end of JSON input".

Definition unparsable : Script :=
  with_Unmarshal quiet ({| Brokers := []; SASL := None |}, Some bad_json).

(** The connector Setup registers, on example handles. *)
Definition a_connector : @connector example_library :=
  Setup_connector (kubeClient 0) (usageTracker 0) (logger 0).

(** * Properties *)

Section Properties.

Context {lib : Library}.

(** One step of a run: the environment's answer to the next call. *)
Lemma run_Vis {W R X} (h : handler W) (e : Event X) (k : X -> Prog R) w x w1 :
  h X e w = (x, w1) ->
  run h (Vis e k) w =
    ((run h (k x) w1).1.1, (run h (k x) w1).1.2,
     Called X e x :: (run h (k x) w1).2).
Proof.
  intros Hh. simpl. rewrite Hh.
  destruct (run h (k x) w1) as [[o w2] tr]. reflexivity.
Qed.

Lemma run_bind_call {W R X} (h : handler W) (e : Event X) (k : X -> Prog R) w x w1 :
  h X e w = (x, w1) ->
  run h (bind (call e) k) w =
    ((run h (k x) w1).1.1, (run h (k x) w1).1.2,
     Called X e x :: (run h (k x) w1).2).
Proof. intros Hh. exact (run_Vis h e _ w x w1 Hh). Qed.

Lemma errors_Is_chain_refl e : errors_Is_chain e e = true.
Proof. destruct e; simpl; rewrite decide_True; auto. Qed.

Lemma errors_Is_Wrap e msg target :
  errors_Is_chain e target = true ->
  errors_Is_chain (errors_Wrap e msg) target = true.
Proof. intros H. simpl. destruct (decide _); auto. Qed.

Lemma len_nil {A} : len (@nil A) = 0.
Proof. reflexivity. Qed.

Lemma len_cons_pos {A} (x : A) l : len (x :: l) > 0.
Proof. unfold len. simpl length. lia. Qed.

(** The body of Observe once the listing has answered without error. *)
Ltac answered H :=
  unfold Observe, Create, Delete, newKafkaClient, mbind, Prog_bind;
  erewrite run_bind_call by exact H;
  cbn beta iota.

(** C4. When the topic is absent from the listing, or its entry carries
    the "unknown topic or partition" error, Observe reports that the
    resource does not exist, with a nil error, and leaves the resource as
    it was. *)
Theorem Observe_unknown_topic_does_not_exist
    {W} (h : handler W) (w w1 : W) (c : external) (cr : Topic)
    (td : gmap string TopicDetail) :
  h _ (ListTopics (kafkaClient c) [GetExternalName cr]) w = ((td, None), w1) ->
  (td !! GetExternalName cr = None
   \/ exists t, td !! GetExternalName cr = Some t
             /\ errors_Is (TD_Err t) UnknownTopicOrPartition = true) ->
  outcome_of (run h (Observe c (ManagedTopic cr)) w)
  = Returned (({| ResourceExists := false; ResourceUpToDate := false |}, None),
              ManagedTopic cr).
Proof.
  intros Hh Hunknown. answered Hh.
  destruct Hunknown as [Habsent | (t & Hfound & Hunk)].
  - rewrite Habsent. reflexivity.
  - rewrite Hfound, Hunk. reflexivity.
Qed.

(** C1 (as amended). When the listed topic's partition count differs
    from the desired one, or the replica count of its first partition
    differs from the desired replication factor, the observation Observe
    returns has ResourceUpToDate = false, whatever error the topic's entry
    or the listing call carries.  When the call succeeded and the entry is
    not an unknown topic, the resource is reported as existing. *)
Theorem Observe_difference_not_up_to_date
    {W} (h : handler W) (w w1 : W) (c : external) (cr : Topic)
    (td : gmap string TopicDetail) (err : option error) (t : TopicDetail) :
  h _ (ListTopics (kafkaClient c) [GetExternalName cr]) w = ((td, err), w1) ->
  td !! GetExternalName cr = Some t ->
  (len (TD_Partitions t) <> Partitions (ForProvider (Spec cr))
   \/ exists p0 rest, TD_Partitions t = p0 :: rest
        /\ len (Replicas p0) <> ReplicationFactor (ForProvider (Spec cr))) ->
  exists obs mg',
    outcome_of (run h (Observe c (ManagedTopic cr)) w)
    = Returned ((obs, err), mg')
    /\ ResourceUpToDate obs = false
    /\ (err = None ->
        ResourceExists obs = negb (errors_Is (TD_Err t) UnknownTopicOrPartition)).
Proof.
  intros Hh Hfound Hdiff. answered Hh.
  destruct err as [e|].
  { do 2 eexists. split; [reflexivity|]. split; [reflexivity | discriminate]. }
  rewrite Hfound.
  destruct (errors_Is (TD_Err t) UnknownTopicOrPartition).
  { do 2 eexists. split; [reflexivity|]. split; reflexivity. }
  cbn [Spec ForProvider Status_SetConditions set_AtProvider_ID].
  destruct (TD_Partitions t) as [|p0 rest] eqn:Hparts.
  - destruct Hdiff as [Hcount | (p & r & Habs & _)]; [|discriminate].
    rewrite bool_decide_eq_false_2 by (rewrite len_nil; lia).
    rewrite bool_decide_eq_true_2 by exact Hcount.
    do 2 eexists. split; [reflexivity|]. split; reflexivity.
  - rewrite (bool_decide_eq_true_2 (len (p0 :: rest) > 0))
      by apply len_cons_pos.
    cbn [index lookup list_lookup bind].
    destruct Hdiff as [Hcount | (p & r & Heq & Hrepl)].
    + rewrite (bool_decide_eq_true_2 (len (p0 :: rest) ≠ _)) by exact Hcount.
      cbn. destruct (bool_decide _);
        do 2 eexists; (split; [reflexivity|]); split; reflexivity.
    + injection Heq as <- <-.
      rewrite (bool_decide_eq_true_2 (len (Replicas p0) ≠ _)) by exact Hrepl.
      cbn. do 2 eexists. split; [reflexivity|]. split; reflexivity.
Qed.

(** C9 (as amended). A listed topic with no partitions whose entry is
    not an unknown topic, against a desired partition count of zero, is up
    to date whatever the desired replication factor: the run returns, so
    the access to the first partition is never made. *)
Theorem Observe_no_partitions_up_to_date
    {W} (h : handler W) (w w1 : W) (c : external) (cr : Topic)
    (td : gmap string TopicDetail) (t : TopicDetail) :
  h _ (ListTopics (kafkaClient c) [GetExternalName cr]) w = ((td, None), w1) ->
  td !! GetExternalName cr = Some t ->
  errors_Is (TD_Err t) UnknownTopicOrPartition = false ->
  Partitions (ForProvider (Spec cr)) = 0 ->
  TD_Partitions t = [] ->
  exists mg',
    outcome_of (run h (Observe c (ManagedTopic cr)) w)
    = Returned (({| ResourceExists := true; ResourceUpToDate := true |}, None),
                mg').
Proof.
  intros Hh Hfound Hknown Hzero Hempty. answered Hh.
  rewrite Hfound, Hknown, Hempty.
  cbn [Spec ForProvider Status_SetConditions set_AtProvider_ID].
  rewrite Hzero, len_nil. cbn. eexists. reflexivity.
Qed.

(** C5. When CreateTopics answers with a number of responses other than
    one, or with one response that carries an error, Create returns an
    error and the resource, its observed status included, is as before. *)
Theorem Create_failure_leaves_status
    {W} (h : handler W) (w w1 : W) (c : external) (cr : Topic)
    (resp : list CreateTopicResponse) :
  h _ (CreateTopics (kafkaClient c)
         (int32 (Partitions (ForProvider (Spec cr))))
         (int16 (ReplicationFactor (ForProvider (Spec cr))))
         None [GetExternalName cr]) w = ((resp, None), w1) ->
  (len resp <> 1 \/ exists r e, resp = [r] /\ CT_Err r = Some e) ->
  exists err,
    outcome_of (run h (Create c (ManagedTopic cr)) w)
    = Returned ((ExternalCreation_zero, Some err), ManagedTopic cr).
Proof.
  intros Hh Hbad. answered Hh.
  destruct Hbad as [Hcount | (r & e & -> & Herr)].
  - rewrite bool_decide_eq_true_2 by exact Hcount. eexists. reflexivity.
  - rewrite bool_decide_eq_false_2 by (intros Hne; apply Hne; reflexivity).
    cbn [index lookup list_lookup bind]. rewrite Herr.
    eexists. reflexivity.
Qed.

(** C2 (the code at the failing input). When DeleteTopics answers with an
    empty response list and no error, Delete reads resp[0] all the same
    and the run ends in an index-out-of-range panic. *)
Theorem Delete_empty_response_panics
    {W} (h : handler W) (w w1 : W) (c : external) (cr : Topic) :
  h _ (DeleteTopics (kafkaClient c) [GetExternalName cr]) w = (([], None), w1) ->
  outcome_of (run h (Delete c (ManagedTopic cr)) w)
  = Panicked "index out of range".
Proof. intros Hh. answered Hh. reflexivity. Qed.

(** On any non-empty response list Delete returns nil: neither branch of
    lines 237-242 leaves the function. *)
Lemma Delete_nonempty_response_returns_nil
    {W} (h : handler W) (w w1 : W) (c : external) (cr : Topic)
    (r : DeleteTopicResponse) (rest : list DeleteTopicResponse) :
  h _ (DeleteTopics (kafkaClient c) [GetExternalName cr]) w
    = ((r :: rest, None), w1) ->
  outcome_of (run h (Delete c (ManagedTopic cr)) w)
  = Returned (None, ManagedTopic cr).
Proof. intros Hh. answered Hh. reflexivity. Qed.

(** C3 (the code at the failing input). When DeleteTopics itself succeeds
    and its first response carries an error, Delete builds the wrapped
    error, drops it, and returns nil. *)
Theorem Delete_drops_response_error
    {W} (h : handler W) (w w1 : W) (c : external) (cr : Topic)
    (r : DeleteTopicResponse) (rest : list DeleteTopicResponse) (e : error) :
  h _ (DeleteTopics (kafkaClient c) [GetExternalName cr]) w
    = ((r :: rest, None), w1) ->
  DT_Err r = Some e ->
  outcome_of (run h (Delete c (ManagedTopic cr)) w)
  = Returned (None, ManagedTopic cr).
Proof.
  intros Hh _. exact (Delete_nonempty_response_returns_nil h w w1 c cr r rest Hh).
Qed.

(** C7. Update logs one line and returns the empty ExternalUpdate with a
    nil error: the only call it makes is to the logger, none reaches
    Kafka, and the managed resource is as before. *)
Theorem Update_is_a_no_op
    {W} (h : handler W) (w : W) (c : external) (mg : Managed) :
  outcome_of (run h (Update c mg) w) = Returned ((ExternalUpdate_zero, None), mg)
  /\ trace_of (run h (Update c mg) w)
     = [Called unit (log_Info (ext_log c) "topic updates not supported yet!") tt]
  /\ kafka_calls (trace_of (run h (Update c mg) w)) = [].
Proof.
  unfold Update, mbind, Prog_bind, call. simpl.
  destruct (h unit _ w) as [[] w1]. auto.
Qed.

(** C8. When the parsed credentials have a SASL block, the client is
    created with the seed brokers and plain SASL authentication under the
    block's username and password; the block's mechanism, whatever its
    value, does not appear in the options. *)
Theorem newKafkaClient_sasl_is_plain
    {W} (h : handler W) (w w1 : W) (data : list Byte.byte)
    (kc : KafkaConfig) (sasl : KafkaSASL) :
  h _ (json_Unmarshal data) w = ((kc, None), w1) ->
  SASL kc = Some sasl ->
  exists ans,
    trace_of (run h (newKafkaClient data) w)
    = [Called _ (json_Unmarshal data) (kc, None);
       Called _ (kgo_NewClient
                   [kgo_SeedBrokers (Brokers kc);
                    kgo_SASL (plain_AsMechanism
                                {| User := Username sasl;
                                   Pass := Password sasl |})]) ans].
Proof.
  intros Hh Hsasl. answered Hh. rewrite Hsasl. unfold call. simpl.
  destruct (h _ _ w1) as [[cl [e|]] w2]; eexists; reflexivity.
Qed.

(** C10. On a managed resource that is not a Topic, Connect, Observe,
    Create and Delete each return the errNotTopic error at once: no call
    is made, the environment and the resource are as before. *)
Theorem not_a_Topic_is_rejected
    {W} (h : handler W) (w : W) (cn : connector) (c : external) (mg : Managed) :
  (forall cr, mg <> ManagedTopic cr) ->
  run h (Connect cn mg) w
    = (Returned ((None, Some (errors_New errNotTopic)), mg), w, [])
  /\ run h (Observe c mg) w
    = (Returned ((ExternalObservation_zero, Some (errors_New errNotTopic)), mg), w, [])
  /\ run h (Create c mg) w
    = (Returned ((ExternalCreation_zero, Some (errors_New errNotTopic)), mg), w, [])
  /\ run h (Delete c mg) w
    = (Returned (Some (errors_New errNotTopic), mg), w, []).
Proof.
  intros Hnot. destruct mg as [cr | kind].
  - destruct (Hnot cr eq_refl).
  - repeat split; reflexivity.
Qed.

Lemma static_message_elem msg :
  In msg static_messages -> msg ∈ static_messages.
Proof. apply list_elem_of_In. Qed.

Ltac static := apply static_message_elem; unfold static_messages; simpl; tauto.

(** Every error Connect returns for a Topic is an error some library
    call of the run answered with, under the static messages. *)
Lemma Connect_errors_are_wrapped
    {W} (h : handler W) (w w' : W) k u l (cr : Topic) res err mg' tr :
  run h (Connect (Setup_connector k u l) (ManagedTopic cr)) w
    = (Returned ((res, Some err), mg'), w', tr) ->
  exists e0, e0 ∈ library_errors tr /\ wrapped_static e0 err.
Proof.
  unfold Connect, Setup_connector, newKafkaClient, mbind, Prog_bind, call, deref.
  simpl.
  repeat
    (match goal with
     | |- context [h ?X ?e ?w0] => destruct (h X e w0) as [? ?] eqn:?
     | x : (_ * _)%type |- _ => destruct x
     | |- context [match ?o with Some _ => _ | None => _ end] => destruct o
     end; simpl).
  all: intros Heq; inversion Heq; subst; clear Heq.
  all: match goal with
       | |- exists e0, _ /\ wrapped_static e0 (errors_Wrap (errors_Wrap ?e _) _) =>
           exists e; split;
           [ unfold library_errors; simpl; set_solver
           | apply wrapped_again; [apply wrapped_once|]; static ]
       | |- exists e0, _ /\ wrapped_static e0 (errors_Wrap ?e _) =>
           exists e; split;
           [ unfold library_errors; simpl; set_solver
           | apply wrapped_once; static ]
       end.
Qed.

(** Whichever library call of Connect fails, Connect returns that error
    under the call's static message, a nil client and the resource as it
    was. *)
Lemma Connect_failure_is_returned
    {W} (h : handler W) (w : W) k u l (cr : Topic) :
  forall n i e0,
    trace_of (run h (Connect (Setup_connector k u l) (ManagedTopic cr)) w) !! n
      = Some i ->
    answer_error i = Some e0 ->
    outcome_of (run h (Connect (Setup_connector k u l) (ManagedTopic cr)) w)
    = Returned ((None, Some (Connect_wraps i e0)), ManagedTopic cr).
Proof.
  unfold Connect, Setup_connector, newKafkaClient, mbind, Prog_bind, call, deref.
  simpl.
  repeat
    (match goal with
     | |- context [h ?X ?e ?w0] => destruct (h X e w0) as [? ?] eqn:?
     | x : (_ * _)%type |- _ => destruct x
     | |- context [match ?o with Some _ => _ | None => _ end] => destruct o
     end; simpl).
  all: intros nth call failure;
    do 5 (destruct nth as [|nth]; simpl;
          [intros [= <-]; simpl; first [discriminate | intros [= <-]; reflexivity]|]);
    simpl; try discriminate.
Qed.

(** C6 (as amended). With the connector Setup registers, whichever
    library call of Connect fails, Connect returns that failure under the
    call's static message, and every error Connect returns is such a
    wrapped library error.  Observe, Create and Delete return a failure
    of their Kafka call as the library gave it, with nothing wrapped
    around it; Create returns the error of its single response under
    "create failed". *)
Theorem library_errors_are_propagated
    {W} (h : handler W) (w w1 : W) (c : external) (cr : Topic) :
  (forall k u l,
     (forall n i e0,
        trace_of (run h (Connect (Setup_connector k u l) (ManagedTopic cr)) w) !! n
          = Some i ->
        answer_error i = Some e0 ->
        outcome_of (run h (Connect (Setup_connector k u l) (ManagedTopic cr)) w)
        = Returned ((None, Some (Connect_wraps i e0)), ManagedTopic cr))
     /\ (forall res err mg' w' tr,
          run h (Connect (Setup_connector k u l) (ManagedTopic cr)) w
            = (Returned ((res, Some err), mg'), w', tr) ->
          exists e0, e0 ∈ library_errors tr /\ wrapped_static e0 err))
  /\ (forall td e,
       h _ (ListTopics (kafkaClient c) [GetExternalName cr]) w = ((td, Some e), w1) ->
       outcome_of (run h (Observe c (ManagedTopic cr)) w)
       = Returned ((ExternalObservation_zero, Some e), ManagedTopic cr))
  /\ (forall resp e,
       h _ (CreateTopics (kafkaClient c)
              (int32 (Partitions (ForProvider (Spec cr))))
              (int16 (ReplicationFactor (ForProvider (Spec cr))))
              None [GetExternalName cr]) w = ((resp, Some e), w1) ->
       outcome_of (run h (Create c (ManagedTopic cr)) w)
       = Returned ((ExternalCreation_zero, Some e), ManagedTopic cr))
  /\ (forall r e,
       h _ (CreateTopics (kafkaClient c)
              (int32 (Partitions (ForProvider (Spec cr))))
              (int16 (ReplicationFactor (ForProvider (Spec cr))))
              None [GetExternalName cr]) w = (([r], None), w1) ->
       CT_Err r = Some e ->
       outcome_of (run h (Create c (ManagedTopic cr)) w)
       = Returned ((ExternalCreation_zero, Some (errors_Wrap e "create failed")),
                   ManagedTopic cr))
  /\ (forall resp e,
       h _ (DeleteTopics (kafkaClient c) [GetExternalName cr]) w = ((resp, Some e), w1) ->
       outcome_of (run h (Delete c (ManagedTopic cr)) w)
       = Returned (Some e, ManagedTopic cr)).
Proof.
  split; [|split; [|split; [|split]]].
  - intros k u l. split.
    + apply Connect_failure_is_returned.
    + intros res err mg' w' tr. apply Connect_errors_are_wrapped.
  - intros td e Hh. answered Hh. reflexivity.
  - intros resp e Hh. answered Hh. reflexivity.
  - intros r e Hh Herr. answered Hh.
    rewrite bool_decide_eq_false_2 by (intros Hne; apply Hne; reflexivity).
    cbn [index lookup list_lookup bind]. rewrite Herr. reflexivity.
  - intros resp e Hh. answered Hh. reflexivity.
Qed.

(** * Further properties of the methods *)

(** Running [p] and then [f] on its result: the traces follow one
    another, and a panic of [p] ends the run. *)
Lemma run_bind {W A B} (h : handler W) (p : Prog A) (f : A -> Prog B) (w : W) :
  run h (bind p f) w =
    match run h p w with
    | (Returned a, w1, tr1) =>
        ((run h (f a) w1).1.1, (run h (f a) w1).1.2, tr1 ++ (run h (f a) w1).2)%list
    | (Panicked msg, w1, tr1) => (Panicked msg, w1, tr1)
    end.
Proof.
  revert w. induction p as [r | msg | X e k IH]; intros w; simpl.
  - destruct (run h (f r) w) as [[o w2] tr]. reflexivity.
  - reflexivity.
  - destruct (h X e w) as [x w1]. rewrite IH.
    destruct (run h (k x) w1) as [[[a | msg] w2] tr1]; [|reflexivity].
    destruct (run h (f a) w2) as [[o w3] tr2]. reflexivity.
Qed.

(** X1. For a listed topic that is not unknown, Observe reports it as
    existing, and as up to date exactly when the partition count is the
    desired one and the first listed partition, if there is one, has the
    desired number of replicas. *)
Theorem Observe_up_to_date_iff
    {W} (h : handler W) (w w1 : W) (c : external) (cr : Topic)
    (td : gmap string TopicDetail) (t : TopicDetail) :
  h _ (ListTopics (kafkaClient c) [GetExternalName cr]) w = ((td, None), w1) ->
  td !! GetExternalName cr = Some t ->
  errors_Is (TD_Err t) UnknownTopicOrPartition = false ->
  exists upToDate mg',
    outcome_of (run h (Observe c (ManagedTopic cr)) w)
    = Returned (({| ResourceExists := true; ResourceUpToDate := upToDate |}, None),
                mg')
    /\ (upToDate = true <->
        len (TD_Partitions t) = Partitions (ForProvider (Spec cr))
        /\ forall p0, head (TD_Partitions t) = Some p0 ->
             len (Replicas p0) = ReplicationFactor (ForProvider (Spec cr))).
Proof.
  intros Hh Hfound Hknown. answered Hh. rewrite Hfound, Hknown.
  cbn [Spec ForProvider Status_SetConditions set_AtProvider_ID].
  destruct (TD_Partitions t) as [|p0 rest] eqn:Hparts.
  - rewrite (bool_decide_eq_false_2 (len [] > 0)) by (rewrite len_nil; lia).
    cbn [bind]. do 2 eexists. split; [reflexivity|].
    case_bool_decide as Hcount; split.
    + discriminate.
    + intros [Heq _]. contradiction.
    + intros _. split; [|discriminate].
      destruct (decide (len (@nil PartitionDetail)
                        = Partitions (ForProvider (Spec cr)))); [done|contradiction].
    + reflexivity.
  - rewrite (bool_decide_eq_true_2 (len (p0 :: rest) > 0))
      by apply len_cons_pos.
    cbn [index lookup list_lookup bind].
    do 2 eexists. split; [reflexivity|].
    cbn [head].
    destruct (decide (len (Replicas p0)
                      = ReplicationFactor (ForProvider (Spec cr)))) as [Hr|Hr];
    destruct (decide (len (p0 :: rest)
                      = Partitions (ForProvider (Spec cr)))) as [Hc|Hc].
    + rewrite (bool_decide_eq_false_2 (len (Replicas p0) ≠ _)) by tauto.
      rewrite (bool_decide_eq_false_2 (len (p0 :: rest) ≠ _)) by tauto.
      split; [|reflexivity]. intros _. split; [exact Hc|]. intros p [= <-]. exact Hr.
    + rewrite (bool_decide_eq_false_2 (len (Replicas p0) ≠ _)) by tauto.
      rewrite (bool_decide_eq_true_2 (len (p0 :: rest) ≠ _)) by exact Hc.
      split; [discriminate|]. intros [Heq _]. contradiction.
    + rewrite (bool_decide_eq_true_2 (len (Replicas p0) ≠ _)) by exact Hr.
      split; [discriminate|]. intros [_ Hhead]. destruct Hr. apply Hhead. reflexivity.
    + rewrite (bool_decide_eq_true_2 (len (Replicas p0) ≠ _)) by exact Hr.
      split; [discriminate|]. intros [Heq _]. contradiction.
Qed.

(** What Observe computes from a listed topic always returns. *)
Lemma Observe_found_returns
    {W} (h : handler W) (w : W) (cr : Topic) (t : TopicDetail) (err : option error) :
  exists upToDate,
    run h
      (bind
         (if bool_decide (len (TD_Partitions t) > 0) then
            bind (index (TD_Partitions t) 0)
              (fun p0 => Ret (bool_decide
                                (len (Replicas p0)
                                 ≠ ReplicationFactor (ForProvider (Spec cr)))))
          else Ret false)
         (fun differs : bool =>
            Ret (({| ResourceExists := true;
                     ResourceUpToDate :=
                       if differs then false
                       else if bool_decide (len (TD_Partitions t)
                                            ≠ Partitions (ForProvider (Spec cr)))
                            then false else true |}, err),
                 ManagedTopic
                   (Status_SetConditions
                      (set_AtProvider_ID cr (TopicID_String (TD_ID t)))
                      [Available])))) w
    = (Returned (({| ResourceExists := true; ResourceUpToDate := upToDate |}, err),
                 ManagedTopic
                   (Status_SetConditions
                      (set_AtProvider_ID cr (TopicID_String (TD_ID t)))
                      [Available])), w, []).
Proof.
  destruct (TD_Partitions t) as [|p0 rest].
  - rewrite (bool_decide_eq_false_2 (len [] > 0)) by (rewrite len_nil; lia).
    eexists. reflexivity.
  - rewrite (bool_decide_eq_true_2 (len (p0 :: rest) > 0)) by apply len_cons_pos.
    eexists. reflexivity.
Qed.

(** X2. Whatever the listing call answers, Observe on a Topic returns,
    and the error it returns is the listing call's own: an error carried
    by the topic's entry is never returned. *)
Theorem Observe_error_is_listing_error
    {W} (h : handler W) (w w1 : W) (c : external) (cr : Topic)
    (td : gmap string TopicDetail) (err : option error) :
  h _ (ListTopics (kafkaClient c) [GetExternalName cr]) w = ((td, err), w1) ->
  exists obs mg',
    outcome_of (run h (Observe c (ManagedTopic cr)) w) = Returned ((obs, err), mg').
Proof.
  intros Hh. answered Hh. destruct err as [e|].
  - do 2 eexists. reflexivity.
  - destruct (td !! GetExternalName cr) as [t|]; [|do 2 eexists; reflexivity].
    destruct (errors_Is (TD_Err t) UnknownTopicOrPartition);
      [do 2 eexists; reflexivity|].
    cbn [Spec ForProvider Status_SetConditions set_AtProvider_ID].
    destruct (Observe_found_returns h w1 cr t None) as [b Hb].
    cbn [Spec ForProvider Status_SetConditions set_AtProvider_ID] in Hb.
    unfold mbind, Prog_bind in *. rewrite Hb. do 2 eexists. reflexivity.
Qed.

(** A run of Observe on a Topic, whatever the listing answers: one call,
    and the resource either as it was or with the listed id and the
    Available condition recorded. *)
Lemma Observe_runs
    {W} (h : handler W) (w w1 : W) (c : external) (cr : Topic)
    (td : gmap string TopicDetail) (err : option error) :
  h _ (ListTopics (kafkaClient c) [GetExternalName cr]) w = ((td, err), w1) ->
  exists obs cr',
    run h (Observe c (ManagedTopic cr)) w
    = (Returned ((obs, err), ManagedTopic cr'), w1,
       [Called _ (ListTopics (kafkaClient c) [GetExternalName cr]) (td, err)])
    /\ ((cr' = cr /\ ResourceExists obs = false)
        \/ exists t, td !! GetExternalName cr = Some t
             /\ errors_Is (TD_Err t) UnknownTopicOrPartition = false
             /\ err = None
             /\ ResourceExists obs = true
             /\ cr' = Status_SetConditions
                        (set_AtProvider_ID cr (TopicID_String (TD_ID t)))
                        [Available]).
Proof.
  intros Hh. answered Hh. destruct err as [e|].
  - do 2 eexists. split; [reflexivity|]. left. split; reflexivity.
  - destruct (td !! GetExternalName cr) as [t|] eqn:Hfound;
      [|do 2 eexists; split; [reflexivity|left; split; reflexivity]].
    destruct (errors_Is (TD_Err t) UnknownTopicOrPartition) eqn:Hknown;
      [do 2 eexists; split; [reflexivity|left; split; reflexivity]|].
    cbn [Spec ForProvider Status_SetConditions set_AtProvider_ID].
    destruct (Observe_found_returns h w1 cr t None) as [b Hb].
    cbn [Spec ForProvider Status_SetConditions set_AtProvider_ID] in Hb.
    unfold mbind, Prog_bind in *. rewrite Hb. do 2 eexists.
    split; [reflexivity|]. right. exists t.
    repeat split; first [reflexivity | assumption].
Qed.

(** X3. Observe on a Topic never panics and writes to Status only: the
    resource it hands back has the Spec and the annotations (so the
    external name) it was given. *)
Theorem Observe_returns_and_keeps_spec
    {W} (h : handler W) (w : W) (c : external) (cr : Topic) :
  exists r cr',
    outcome_of (run h (Observe c (ManagedTopic cr)) w)
    = Returned (r, ManagedTopic cr')
    /\ Spec cr' = Spec cr
    /\ Annotations cr' = Annotations cr.
Proof.
  destruct (h _ (ListTopics (kafkaClient c) [GetExternalName cr]) w)
    as [[td err] w1] eqn:Hh.
  destruct (Observe_runs h w w1 c cr td err Hh) as (obs & cr' & Hrun & Hcr).
  exists (obs, err), cr'. rewrite Hrun. split; [reflexivity|].
  destruct Hcr as [[-> _] | (t & _ & _ & _ & _ & ->)]; split; reflexivity.
Qed.

(** X4. For a listed topic that is not unknown, Observe records the
    listed topic id as Status.AtProvider.ID and sets the Available
    condition, whether or not the topic is up to date. *)
Theorem Observe_records_id_and_condition
    {W} (h : handler W) (w w1 : W) (c : external) (cr : Topic)
    (td : gmap string TopicDetail) (t : TopicDetail) :
  h _ (ListTopics (kafkaClient c) [GetExternalName cr]) w = ((td, None), w1) ->
  td !! GetExternalName cr = Some t ->
  errors_Is (TD_Err t) UnknownTopicOrPartition = false ->
  exists r cr',
    outcome_of (run h (Observe c (ManagedTopic cr)) w)
    = Returned (r, ManagedTopic cr')
    /\ ID (AtProvider (Status cr')) = TopicID_String (TD_ID t)
    /\ Conditions (Status cr') = SetConditions (Conditions (Status cr)) [Available].
Proof.
  intros Hh Hfound Hknown.
  destruct (Observe_runs h w w1 c cr td None Hh) as (obs & cr' & Hrun & Hcr).
  exists (obs, None), cr'. rewrite Hrun. split; [reflexivity|].
  destruct Hcr as [[-> Hno] | (t' & Hfound' & _ & _ & _ & ->)].
  - exfalso. revert Hrun Hno. answered Hh. rewrite Hfound, Hknown.
    cbn [Spec ForProvider Status_SetConditions set_AtProvider_ID].
    destruct (Observe_found_returns h w1 cr t None) as [b Hb].
    cbn [Spec ForProvider Status_SetConditions set_AtProvider_ID] in Hb.
    unfold mbind, Prog_bind in *. rewrite Hb. simpl.
    intros [= <- _]. discriminate.
  - rewrite Hfound in Hfound'. injection Hfound' as <-. split; reflexivity.
Qed.

(** The observation depends on the resource through its Spec and its
    annotations alone. *)
Lemma Observe_result_ignores_status
    {W} (h : handler W) (w : W) (c : external) (cr1 cr2 : Topic) :
  Spec cr1 = Spec cr2 ->
  Annotations cr1 = Annotations cr2 ->
  forall r mg1,
    outcome_of (run h (Observe c (ManagedTopic cr1)) w) = Returned (r, mg1) ->
    exists mg2,
      outcome_of (run h (Observe c (ManagedTopic cr2)) w) = Returned (r, mg2).
Proof.
  destruct cr1 as [a1 s1 st1], cr2 as [a2 s2 st2]. simpl. intros -> ->.
  intros r mg1.
  unfold Observe, GetExternalName, mbind, Prog_bind, call. simpl.
  destruct (h _ _ w) as [[td [e|]] w1]; simpl.
  - intros [= <- _]. eexists. reflexivity.
  - destruct (td !! _) as [t|]; [|intros [= <- _]; eexists; reflexivity].
    destruct (errors_Is _ _); [intros [= <- _]; eexists; reflexivity|].
    destruct (TD_Partitions t) as [|p0 rest].
    + rewrite (bool_decide_eq_false_2 (len [] > 0)) by (rewrite len_nil; lia).
      simpl. intros [= <- _]. eexists. reflexivity.
    + rewrite (bool_decide_eq_true_2 (len (p0 :: rest) > 0))
        by apply len_cons_pos.
      simpl. intros [= <- _]. eexists. reflexivity.
Qed.

(** The outcome of Observe depends on the environment through the
    answer to its one call alone. *)
Lemma Observe_same_answer
    {W} (h : handler W) (w w2 : W) (c : external) (cr : Topic) :
  fst (h _ (ListTopics (kafkaClient c) [GetExternalName cr]) w2)
    = fst (h _ (ListTopics (kafkaClient c) [GetExternalName cr]) w) ->
  outcome_of (run h (Observe c (ManagedTopic cr)) w2)
  = outcome_of (run h (Observe c (ManagedTopic cr)) w).
Proof.
  intros Hsame.
  destruct (h _ (ListTopics (kafkaClient c) [GetExternalName cr]) w)
    as [[td err] w1] eqn:Hw.
  destruct (h _ (ListTopics (kafkaClient c) [GetExternalName cr]) w2)
    as [[td2 err2] w3] eqn:Hw2.
  simpl in Hsame. injection Hsame as -> ->.
  answered Hw2. answered Hw.
  destruct err as [e|]; [reflexivity|].
  destruct (td !! GetExternalName cr) as [t|]; [|reflexivity].
  destruct (errors_Is _ _); [reflexivity|].
  cbn [Spec ForProvider Status_SetConditions set_AtProvider_ID].
  destruct (TD_Partitions t) as [|p0 rest].
  - rewrite !(bool_decide_eq_false_2 (len [] > 0)) by (rewrite len_nil; lia).
    reflexivity.
  - rewrite !(bool_decide_eq_true_2 (len (p0 :: rest) > 0))
      by apply len_cons_pos.
    reflexivity.
Qed.

(** X5. Observing the resource Observe handed back, when the listing
    call answers as it did the first time, gives the same observation and
    error again. *)
Theorem Observe_again_same_result
    {W} (h : handler W) (w w2 : W) (c : external) (cr cr' : Topic)
    (r : ExternalObservation * option error) :
  outcome_of (run h (Observe c (ManagedTopic cr)) w)
    = Returned (r, ManagedTopic cr') ->
  fst (h _ (ListTopics (kafkaClient c) [GetExternalName cr]) w2)
    = fst (h _ (ListTopics (kafkaClient c) [GetExternalName cr]) w) ->
  exists mg'',
    outcome_of (run h (Observe c (ManagedTopic cr')) w2) = Returned (r, mg'').
Proof.
  intros Hfirst Hsame.
  assert (Spec cr = Spec cr' /\ Annotations cr = Annotations cr') as [Hspec Hann].
  { destruct (h _ (ListTopics (kafkaClient c) [GetExternalName cr]) w)
      as [[td err] w1] eqn:Hw.
    destruct (Observe_runs h w w1 c cr td err Hw) as (obs & cr0 & Hrun & Hcr).
    rewrite Hrun in Hfirst. injection Hfirst as _ <-.
    destruct Hcr as [[-> _] | (t & _ & _ & _ & _ & ->)]; split; reflexivity. }
  apply (Observe_result_ignores_status h w2 c cr cr' Hspec Hann r (ManagedTopic cr')).
  rewrite (Observe_same_answer h w w2 c cr Hsame). exact Hfirst.
Qed.

Lemma len_one {A} (x : A) : len [x] = 1.
Proof. reflexivity. Qed.

Lemma len_two_more {A} (x y : A) l : len (x :: y :: l) <> 1.
Proof. unfold len. simpl length. lia. Qed.

(** A run of Create on a Topic, whatever CreateTopics answers. *)
Lemma Create_runs
    {W} (h : handler W) (w w1 : W) (c : external) (cr : Topic)
    (resp : list CreateTopicResponse) (err : option error) :
  h _ (CreateTopics (kafkaClient c)
         (int32 (Partitions (ForProvider (Spec cr))))
         (int16 (ReplicationFactor (ForProvider (Spec cr))))
         None [GetExternalName cr]) w = ((resp, err), w1) ->
  exists err' cr',
    outcome_of (run h (Create c (ManagedTopic cr)) w)
    = Returned ((ExternalCreation_zero, err'), ManagedTopic cr')
    /\ ((exists e, err' = Some e /\ cr' = cr
                 /\ ~ (err = None /\ exists r, resp = [r] /\ CT_Err r = None))
        \/ exists r, err = None /\ resp = [r] /\ CT_Err r = None /\ err' = None
             /\ cr' = set_AtProvider_ID cr (TopicID_String (CT_ID r))).
Proof.
  intros Hh. answered Hh. destruct err as [e|].
  - do 2 eexists. split; [reflexivity|]. left. eexists.
    repeat split. intros [Hnone _]. discriminate.
  - destruct resp as [|r [|r2 rest]].
    + rewrite bool_decide_eq_true_2 by (rewrite len_nil; lia).
      do 2 eexists. split; [reflexivity|]. left. eexists.
      repeat split. intros [_ (r & Hr & _)]. discriminate.
    + rewrite bool_decide_eq_false_2 by (rewrite len_one; tauto).
      cbn [index lookup list_lookup bind].
      destruct (CT_Err r) as [e|] eqn:Herr.
      * do 2 eexists. split; [reflexivity|]. left. eexists.
        repeat split. intros [_ (r' & [= <-] & Hr)]. congruence.
      * do 2 eexists. split; [reflexivity|]. right. exists r.
        repeat split; first [reflexivity | assumption].
    + rewrite bool_decide_eq_true_2 by apply len_two_more.
      do 2 eexists. split; [reflexivity|]. left. eexists.
      repeat split. intros [_ (r' & Hr & _)]. discriminate.
Qed.

(** X6. Create returns a nil error exactly when CreateTopics itself
    succeeded with one response and that response has no error; it then
    records the response's topic id as Status.AtProvider.ID. *)
Theorem Create_succeeds_iff
    {W} (h : handler W) (w w1 : W) (c : external) (cr : Topic)
    (resp : list CreateTopicResponse) (err : option error) :
  h _ (CreateTopics (kafkaClient c)
         (int32 (Partitions (ForProvider (Spec cr))))
         (int16 (ReplicationFactor (ForProvider (Spec cr))))
         None [GetExternalName cr]) w = ((resp, err), w1) ->
  (forall r, err = None -> resp = [r] -> CT_Err r = None ->
     outcome_of (run h (Create c (ManagedTopic cr)) w)
     = Returned ((ExternalCreation_zero, None),
                 ManagedTopic (set_AtProvider_ID cr (TopicID_String (CT_ID r)))))
  /\ (forall x mg',
        outcome_of (run h (Create c (ManagedTopic cr)) w) = Returned ((x, None), mg') ->
        err = None /\ exists r, resp = [r] /\ CT_Err r = None).
Proof.
  intros Hh.
  destruct (Create_runs h w w1 c cr resp err Hh) as (err' & cr' & Hrun & Hcases).
  rewrite Hrun. split.
  - intros r -> -> Hok.
    destruct Hcases as [(e & _ & _ & Hnot) | (r' & _ & [= <-] & _ & -> & ->)].
    + destruct Hnot. split; [reflexivity|]. exists r. split; [reflexivity|assumption].
    + reflexivity.
  - intros x mg' [= _ -> _].
    destruct Hcases as [(e & Habs & _) | (r & -> & -> & Hok & _)]; [discriminate|].
    split; [reflexivity|]. exists r. split; [reflexivity|assumption].
Qed.

(** X7. Create on a Topic never panics, and the only field it can change
    is Status.AtProvider.ID: Spec, annotations and conditions are handed
    back as given. *)
Theorem Create_returns_and_keeps_spec
    {W} (h : handler W) (w : W) (c : external) (cr : Topic) :
  exists r cr',
    outcome_of (run h (Create c (ManagedTopic cr)) w)
    = Returned (r, ManagedTopic cr')
    /\ Spec cr' = Spec cr
    /\ Annotations cr' = Annotations cr
    /\ Conditions (Status cr') = Conditions (Status cr).
Proof.
  destruct (h _ (CreateTopics (kafkaClient c)
                   (int32 (Partitions (ForProvider (Spec cr))))
                   (int16 (ReplicationFactor (ForProvider (Spec cr))))
                   None [GetExternalName cr]) w) as [[resp err] w1] eqn:Hh.
  destruct (Create_runs h w w1 c cr resp err Hh) as (err' & cr' & Hrun & Hcases).
  exists (ExternalCreation_zero, err'), cr'. split; [exact Hrun|].
  destruct Hcases as [(e & _ & -> & _) | (r & _ & _ & _ & _ & ->)];
    repeat split; reflexivity.
Qed.

Lemma int32_range x : - 2 ^ 31 <= int32 x < 2 ^ 31.
Proof.
  unfold int32.
  pose proof (Z.mod_pos_bound (x + 2 ^ 31) (2 ^ 32) ltac:(lia)). lia.
Qed.

Lemma int16_range x : - 2 ^ 15 <= int16 x < 2 ^ 15.
Proof.
  unfold int16.
  pose proof (Z.mod_pos_bound (x + 2 ^ 15) (2 ^ 16) ltac:(lia)). lia.
Qed.

Lemma int32_in_range x : - 2 ^ 31 <= x < 2 ^ 31 -> int32 x = x.
Proof. intros Hx. unfold int32. rewrite Z.mod_small by lia. lia. Qed.

Lemma int16_in_range x : - 2 ^ 15 <= x < 2 ^ 15 -> int16 x = x.
Proof. intros Hx. unfold int16. rewrite Z.mod_small by lia. lia. Qed.

Lemma int32_wraps x : exists k, int32 x = x + k * 2 ^ 32.
Proof.
  exists (- ((x + 2 ^ 31) / 2 ^ 32)). unfold int32.
  pose proof (Z.div_mod (x + 2 ^ 31) (2 ^ 32) ltac:(lia)). lia.
Qed.

Lemma int16_wraps x : exists k, int16 x = x + k * 2 ^ 16.
Proof.
  exists (- ((x + 2 ^ 15) / 2 ^ 16)). unfold int16.
  pose proof (Z.div_mod (x + 2 ^ 15) (2 ^ 16) ltac:(lia)). lia.
Qed.

(** The one call of Create. *)
Lemma Create_call_arguments_trace
    {W} (h : handler W) (w : W) (c : external) (cr : Topic) :
  exists ans,
    trace_of (run h (Create c (ManagedTopic cr)) w)
    = [Called _ (CreateTopics (kafkaClient c)
                   (int32 (Partitions (ForProvider (Spec cr))))
                   (int16 (ReplicationFactor (ForProvider (Spec cr))))
                   None [GetExternalName cr]) ans].
Proof.
  destruct (h _ (CreateTopics (kafkaClient c)
                   (int32 (Partitions (ForProvider (Spec cr))))
                   (int16 (ReplicationFactor (ForProvider (Spec cr))))
                   None [GetExternalName cr]) w) as [[resp err] w1] eqn:Hh.
  exists (resp, err).
  answered Hh. destruct err as [e|]; [reflexivity|].
  destruct resp as [|r [|r2 rest]].
  - rewrite bool_decide_eq_true_2 by (rewrite len_nil; lia). reflexivity.
  - rewrite bool_decide_eq_false_2 by (rewrite len_one; tauto).
    cbn [index lookup list_lookup bind].
    destruct (CT_Err r); reflexivity.
  - rewrite bool_decide_eq_true_2 by apply len_two_more. reflexivity.
Qed.

(** X8. Create asks Kafka for one topic, named by the external name,
    with no configs.  The partition count and replication factor it sends
    fit int32 and int16; they are the desired values when those fit, and
    otherwise the desired values moved by a multiple of 2^32 and 2^16. *)
Theorem Create_call_arguments
    {W} (h : handler W) (w : W) (c : external) (cr : Topic) :
  exists p rf ans,
    trace_of (run h (Create c (ManagedTopic cr)) w)
    = [Called _ (CreateTopics (kafkaClient c) p rf None [GetExternalName cr]) ans]
    /\ - 2 ^ 31 <= p < 2 ^ 31
    /\ - 2 ^ 15 <= rf < 2 ^ 15
    /\ (exists k, p = Partitions (ForProvider (Spec cr)) + k * 2 ^ 32)
    /\ (exists k, rf = ReplicationFactor (ForProvider (Spec cr)) + k * 2 ^ 16)
    /\ (- 2 ^ 31 <= Partitions (ForProvider (Spec cr)) < 2 ^ 31 ->
        p = Partitions (ForProvider (Spec cr)))
    /\ (- 2 ^ 15 <= ReplicationFactor (ForProvider (Spec cr)) < 2 ^ 15 ->
        rf = ReplicationFactor (ForProvider (Spec cr))).
Proof.
  exists (int32 (Partitions (ForProvider (Spec cr)))),
         (int16 (ReplicationFactor (ForProvider (Spec cr)))).
  destruct (Create_call_arguments_trace h w c cr) as [ans Htr].
  exists ans. split; [exact Htr|].
  split; [apply int32_range|]. split; [apply int16_range|].
  split; [apply int32_wraps|]. split; [apply int16_wraps|].
  split; [apply int32_in_range | apply int16_in_range].
Qed.

(** X9. Delete on a Topic panics exactly when DeleteTopics answers with
    no error and no response; when it returns, the error is the one
    DeleteTopics itself gave (nil if none) and the resource is as it was. *)
Theorem Delete_outcome
    {W} (h : handler W) (w w1 : W) (c : external) (cr : Topic)
    (resp : list DeleteTopicResponse) (err : option error) :
  h _ (DeleteTopics (kafkaClient c) [GetExternalName cr]) w = ((resp, err), w1) ->
  ((exists msg, outcome_of (run h (Delete c (ManagedTopic cr)) w) = Panicked msg)
   <-> err = None /\ resp = [])
  /\ (forall e mg',
        outcome_of (run h (Delete c (ManagedTopic cr)) w) = Returned (e, mg') ->
        e = err /\ mg' = ManagedTopic cr).
Proof.
  intros Hh. answered Hh. destruct err as [e0|].
  - split.
    + split; [intros [msg Habs]; discriminate | intros [Habs _]; discriminate].
    + intros e mg' [= <- <-]. split; reflexivity.
  - destruct resp as [|r rest].
    + split.
      * split; [intros _; split; reflexivity | intros _; eexists; reflexivity].
      * intros e mg' Habs. discriminate.
    + split.
      * split; [intros [msg Habs]; discriminate | intros [_ Habs]; discriminate].
      * intros e mg' [= <- <-]. split; reflexivity.
Qed.

(** X10. On a Topic, Observe, Create and Delete each make exactly one
    library call: ListTopics, CreateTopics and DeleteTopics on the
    adapter's client, naming exactly the resource's external name. *)
Theorem one_Kafka_call_each
    {W} (h : handler W) (w : W) (c : external) (cr : Topic) :
  (exists ans,
     trace_of (run h (Observe c (ManagedTopic cr)) w)
     = [Called _ (ListTopics (kafkaClient c) [GetExternalName cr]) ans])
  /\ (exists ans,
       trace_of (run h (Create c (ManagedTopic cr)) w)
       = [Called _ (CreateTopics (kafkaClient c)
                      (int32 (Partitions (ForProvider (Spec cr))))
                      (int16 (ReplicationFactor (ForProvider (Spec cr))))
                      None [GetExternalName cr]) ans])
  /\ (exists ans,
       trace_of (run h (Delete c (ManagedTopic cr)) w)
       = [Called _ (DeleteTopics (kafkaClient c) [GetExternalName cr]) ans]).
Proof.
  split; [|split].
  - destruct (h _ (ListTopics (kafkaClient c) [GetExternalName cr]) w)
      as [[td err] w1] eqn:Hh.
    destruct (Observe_runs h w w1 c cr td err Hh) as (obs & cr' & Hrun & _).
    exists (td, err). rewrite Hrun. reflexivity.
  - destruct (Create_call_arguments_trace h w c cr) as [ans Htr].
    exists ans. exact Htr.
  - destruct (h _ (DeleteTopics (kafkaClient c) [GetExternalName cr]) w)
      as [[resp err] w1] eqn:Hh.
    exists (resp, err). answered Hh.
    destruct err as [e|]; [reflexivity|].
    destruct resp as [|r rest]; reflexivity.
Qed.

(** X11. When the parsed credentials have no SASL block, the client is
    created with the seed brokers as its only option: no authentication
    is configured. *)
Theorem newKafkaClient_without_sasl
    {W} (h : handler W) (w w1 : W) (data : list Byte.byte) (kc : KafkaConfig) :
  h _ (json_Unmarshal data) w = ((kc, None), w1) ->
  SASL kc = None ->
  exists ans,
    trace_of (run h (newKafkaClient data) w)
    = [Called _ (json_Unmarshal data) (kc, None);
       Called _ (kgo_NewClient [kgo_SeedBrokers (Brokers kc)]) ans].
Proof.
  intros Hh Hsasl. answered Hh. rewrite Hsasl. unfold call. simpl.
  destruct (h _ _ w1) as [[cl [e|]] w2]; eexists; reflexivity.
Qed.

(** X12. When the credentials do not parse, newKafkaClient returns a nil
    client and the parse error under "cannot parse credentials", and
    makes no attempt to create a client. *)
Theorem newKafkaClient_parse_failure
    {W} (h : handler W) (w w1 : W) (data : list Byte.byte)
    (kc : KafkaConfig) (e : error) :
  h _ (json_Unmarshal data) w = ((kc, Some e), w1) ->
  run h (newKafkaClient data) w
  = (Returned (None, Some (errors_Wrap e "cannot parse credentials")), w1,
     [Called _ (json_Unmarshal data) (kc, Some e)])
  /\ kafka_calls (trace_of (run h (newKafkaClient data) w)) = [].
Proof. intros Hh. answered Hh. split; reflexivity. Qed.

(** X13. newKafkaClient never panics, and a run of it is one of three.
    The credentials do not parse: one call, a nil client and the parse
    error under "cannot parse credentials".  kgo.NewClient fails: a nil
    client and that error as it is.  Otherwise: the admin client on what
    kgo.NewClient answered with, and a nil error. *)
Theorem newKafkaClient_client_or_error
    {W} (h : handler W) (w : W) (data : list Byte.byte) :
  (exists kc e0,
     trace_of (run h (newKafkaClient data) w)
       = [Called _ (json_Unmarshal data) (kc, Some e0)]
     /\ outcome_of (run h (newKafkaClient data) w)
        = Returned (None, Some (errors_Wrap e0 "cannot parse credentials")))
  \/ (exists kc opts c e0,
       trace_of (run h (newKafkaClient data) w)
         = [Called _ (json_Unmarshal data) (kc, None);
            Called _ (kgo_NewClient opts) (c, Some e0)]
       /\ outcome_of (run h (newKafkaClient data) w) = Returned (None, Some e0))
  \/ (exists kc opts c,
       trace_of (run h (newKafkaClient data) w)
         = [Called _ (json_Unmarshal data) (kc, None);
            Called _ (kgo_NewClient opts) (c, None)]
       /\ outcome_of (run h (newKafkaClient data) w)
          = Returned (Some (kadm_NewClient c), None)).
Proof.
  unfold newKafkaClient, mbind, Prog_bind, call. simpl.
  destruct (h _ (json_Unmarshal data) w) as [[kc [e|]] w1]; simpl.
  - left. do 2 eexists. split; reflexivity.
  - destruct (h _ _ w1) as [[c [e|]] w2]; simpl.
    + right. left. do 4 eexists. split; reflexivity.
    + right. right. do 3 eexists. split; reflexivity.
Qed.

(** All runs of Connect with the connector Setup registers. *)
Ltac Connect_cases h :=
  unfold Connect, Setup_connector, newKafkaClient, mbind, Prog_bind, call, deref;
  simpl;
  repeat
    (match goal with
     | |- context [h ?X ?e ?w0] => destruct (h X e w0) as [? ?] eqn:?
     | x : (_ * _)%type |- _ => destruct x
     | |- context [match ?o with Some _ => _ | None => _ end] => destruct o
     end; simpl).

(** X14. With the connector Setup registers, Connect returns a nil error
    exactly when no library call of the run answered with an error, and
    it returns a client exactly when it returns a nil error. *)
Theorem Connect_succeeds_iff_no_library_error
    {W} (h : handler W) (w w' : W) k u l (cr : Topic) res err mg' tr :
  run h (Connect (Setup_connector k u l) (ManagedTopic cr)) w
    = (Returned ((res, err), mg'), w', tr) ->
  (err = None <-> library_errors tr = [])
  /\ (res = None <-> err <> None).
Proof.
  Connect_cases h.
  all: intros Heq; inversion Heq; subst; clear Heq.
  all: unfold library_errors; simpl.
  all: split; split; intros; congruence.
Qed.

(** X15. When Connect succeeds, the client it hands back talks through
    the admin client built on what the last call, kgo.NewClient, answered
    with, and logs to the connector's logger; the managed resource is as
    it was. *)
Theorem Connect_success_client
    {W} (h : handler W) (w w' : W) k u l (cr : Topic) ext mg' tr :
  run h (Connect (Setup_connector k u l) (ManagedTopic cr)) w
    = (Returned ((Some ext, None), mg'), w', tr) ->
  exists c opts,
    last tr = Some (Called _ (kgo_NewClient opts) (c, None))
    /\ ext = {| kafkaClient := Some (kadm_NewClient c); ext_log := l |}
    /\ mg' = ManagedTopic cr.
Proof.
  Connect_cases h.
  all: intros Heq; inversion Heq; subst; clear Heq.
  all: do 2 eexists; repeat split; reflexivity.
Qed.

(** X16. With the connector Setup registers, the calls of Connect are,
    in order, an initial part of: track usage, get the ProviderConfig,
    extract the credentials, parse them, create the client.  A call that
    answers with an error is the last one made. *)
Theorem Connect_calls_in_order
    {W} (h : handler W) (w : W) k u l (cr : Topic) :
  List.map call_name (trace_of (run h (Connect (Setup_connector k u l)
                                         (ManagedTopic cr)) w))
    `prefix_of` Connect_calls
  /\ forall n i e,
       trace_of (run h (Connect (Setup_connector k u l) (ManagedTopic cr)) w) !! n
         = Some i ->
       answer_error i = Some e ->
       length (trace_of (run h (Connect (Setup_connector k u l)
                                  (ManagedTopic cr)) w)) = S n.
Proof.
  Connect_cases h.
  all: split;
    [ unfold Connect_calls;
      repeat first [apply prefix_cons | apply prefix_nil | apply prefix_of_nil
                   | reflexivity]
    | intros nth call failure;
      do 5 (destruct nth as [|nth]; simpl;
            [intros [= <-]; simpl; first [discriminate | reflexivity]|]);
      simpl; try discriminate ].
Qed.

(** X17. Connect, with any connector, hands the managed resource back as
    it was given. *)
Theorem Connect_keeps_resource
    {W} (h : handler W) (w : W) (cn : connector) (mg mg' : Managed) r :
  outcome_of (run h (Connect cn mg) w) = Returned (r, mg') ->
  mg' = mg.
Proof.
  destruct mg as [cr | kind]; [|simpl; intros [= _ <-]; reflexivity].
  unfold Connect, mbind, Prog_bind, call, deref. simpl.
  destruct (h _ _ w) as [[e|] w1]; simpl; [intros [= _ <-]; reflexivity|].
  destruct (ProviderConfigReference (Spec cr)) as [ref|]; simpl; [|discriminate].
  destruct (h _ _ w1) as [[pc [e|]] w2]; simpl; [intros [= _ <-]; reflexivity|].
  destruct (h _ _ w2) as [[data [e|]] w3]; simpl; [intros [= _ <-]; reflexivity|].
  rewrite run_bind.
  destruct (run h (newServiceFn cn data) w3) as [[[[svc [e|]] | msg] w4] tr4];
    simpl; try discriminate; intros [= _ <-]; reflexivity.
Qed.

(** X18. What Observe returns is consistent, on any managed resource:
    with an error the observation is the zero value, and a resource
    reported as up to date is reported as existing, with a nil error. *)
Theorem Observe_result_consistent
    {W} (h : handler W) (w : W) (c : external) (mg mg' : Managed)
    (obs : ExternalObservation) (err : option error) :
  outcome_of (run h (Observe c mg) w) = Returned ((obs, err), mg') ->
  (err <> None -> obs = ExternalObservation_zero)
  /\ (ResourceUpToDate obs = true -> ResourceExists obs = true /\ err = None).
Proof.
  destruct mg as [cr | kind].
  - destruct (h _ (ListTopics (kafkaClient c) [GetExternalName cr]) w)
      as [[td e] w1] eqn:Hh.
    answered Hh. destruct e as [e|].
    + simpl. intros [= <- <- _]. split; [reflexivity | discriminate].
    + destruct (td !! GetExternalName cr) as [t|];
        [|simpl; intros [= <- <- _]; split; [congruence | discriminate]].
      destruct (errors_Is _ _);
        [simpl; intros [= <- <- _]; split; [congruence | discriminate]|].
      cbn [Spec ForProvider Status_SetConditions set_AtProvider_ID].
      destruct (Observe_found_returns h w1 cr t None) as [b Hb].
      cbn [Spec ForProvider Status_SetConditions set_AtProvider_ID] in Hb.
      unfold mbind, Prog_bind in *. rewrite Hb. simpl.
      intros [= <- <- _]. split; [congruence | intros _; split; reflexivity].
  - simpl. intros [= <- <- _]. split; [reflexivity | discriminate].
Qed.

End Properties.

(** * The methods on example inputs *)

(** A listed topic that matches the desired spec is up to date, and
    Observe records its id and the Available condition. *)
Example Observe_matching_topic :
  outcome_of (run (scripted (listing [partition_with 3; partition_with 3]))
                (Observe an_external (ManagedTopic (orders 2 3))) 0%nat)
  = Returned (({| ResourceExists := true; ResourceUpToDate := true |}, None),
              ManagedTopic
                (Status_SetConditions (set_AtProvider_ID (orders 2 3) "0")
                   ["Available"])).
Proof. vm_compute. reflexivity. Qed.

(** One successful response: Create records the topic id. *)
Example Create_records_id :
  outcome_of (run (scripted (with_Create quiet ([created], None)))
                (Create an_external (ManagedTopic (orders 2 3))) 0%nat)
  = Returned ((ExternalCreation_zero, None),
              ManagedTopic (set_AtProvider_ID (orders 2 3) "16")).
Proof. vm_compute. reflexivity. Qed.

(** Two responses: Create reports the count. *)
Example Create_two_responses :
  outcome_of (run (scripted (with_Create quiet ([created; created], None)))
                (Create an_external (ManagedTopic (orders 2 3))) 0%nat)
  = Returned ((ExternalCreation_zero,
               Some (errors_New "unexpected number of createTopicResponse 2")),
              ManagedTopic (orders 2 3)).
Proof. vm_compute. reflexivity. Qed.

(** The partition count is narrowed to 32 bits on the way to Kafka. *)
Example Create_narrows_partitions :
  trace_of (run (scripted quiet)
              (Create an_external (ManagedTopic (orders (2 ^ 32 + 6) 3))) 0%nat)
  = [Called _ (CreateTopics (kafkaClient an_external) 6 3 None ["orders"])
       ([], None)].
Proof. vm_compute. reflexivity. Qed.

(** * The theorems at the example inputs *)

(** C1: with two partitions desired and listed, the first with the
    desired three replicas and the second with one, a partition's replica
    count differs from the replication factor and Observe still reports
    the resource as up to date. *)
Lemma Observe_ignores_later_partitions :
  (exists p, p ∈ [partition_with 3; partition_with 1]
          /\ len (Replicas p) <> ReplicationFactor (ForProvider (Spec (orders 2 3))))
  /\ exists mg',
      outcome_of (run (scripted (listing [partition_with 3; partition_with 1]))
                    (Observe an_external (ManagedTopic (orders 2 3))) 0%nat)
      = Returned (({| ResourceExists := true; ResourceUpToDate := true |}, None), mg').
Proof.
  split.
  - exists (partition_with 1). split; [set_solver | vm_compute; discriminate].
  - eexists. vm_compute. reflexivity.
Qed.

Lemma Observe_difference_not_up_to_date_witness :
  exists obs mg',
    outcome_of (run (scripted (listing [partition_with 1; partition_with 3]))
                  (Observe an_external (ManagedTopic (orders 2 3))) 0%nat)
    = Returned ((obs, None), mg')
    /\ ResourceUpToDate obs = false
    /\ (@None error = None -> ResourceExists obs = negb false).
Proof.
  eapply (Observe_difference_not_up_to_date
            (scripted (listing [partition_with 1; partition_with 3]))
            0%nat 1%nat an_external (orders 2 3) _ None
            {| TD_ID := []; TD_Partitions := [partition_with 1; partition_with 3];
               TD_Err := None |}).
  - reflexivity.
  - reflexivity.
  - right. exists (partition_with 1), [partition_with 3].
    split; [reflexivity | vm_compute; discriminate].
Defined.

Lemma Observe_unknown_topic_does_not_exist_witness :
  outcome_of (run (scripted listing_unknown)
                (Observe an_external (ManagedTopic (orders 2 3))) 0%nat)
  = Returned (({| ResourceExists := false; ResourceUpToDate := false |}, None),
              ManagedTopic (orders 2 3)).
Proof.
  eapply (Observe_unknown_topic_does_not_exist
            (scripted listing_unknown) 0%nat 1%nat an_external (orders 2 3)).
  - reflexivity.
  - right. eexists. split; [reflexivity|].
    apply errors_Is_Wrap, errors_Is_chain_refl.
Defined.

Lemma Observe_no_partitions_up_to_date_witness :
  exists mg',
    outcome_of (run (scripted (listing []))
                  (Observe an_external (ManagedTopic (orders 0 3))) 0%nat)
    = Returned (({| ResourceExists := true; ResourceUpToDate := true |}, None), mg').
Proof.
  eapply (Observe_no_partitions_up_to_date
            (scripted (listing [])) 0%nat 1%nat an_external (orders 0 3)).
  - reflexivity.
  - reflexivity.
  - reflexivity.
  - reflexivity.
  - reflexivity.
Defined.

Lemma Create_failure_leaves_status_witness :
  exists err,
    outcome_of (run (scripted quiet) (Create an_external (ManagedTopic (orders 2 3))) 0%nat)
    = Returned ((ExternalCreation_zero, Some err), ManagedTopic (orders 2 3)).
Proof.
  apply (Create_failure_leaves_status
           (scripted quiet) 0%nat 1%nat an_external (orders 2 3) []).
  - reflexivity.
  - left. vm_compute. discriminate.
Defined.

Lemma Delete_empty_response_panics_witness :
  outcome_of (run (scripted quiet) (Delete an_external (ManagedTopic (orders 2 3))) 0%nat)
  = Panicked "index out of range".
Proof.
  apply (Delete_empty_response_panics
           (scripted quiet) 0%nat 1%nat an_external (orders 2 3)).
  reflexivity.
Defined.

Lemma Delete_drops_response_error_witness :
  outcome_of (run (scripted delete_refused)
                (Delete an_external (ManagedTopic (orders 2 3))) 0%nat)
  = Returned (None, ManagedTopic (orders 2 3)).
Proof.
  apply (Delete_drops_response_error
           (scripted delete_refused) 0%nat 1%nat an_external (orders 2 3)
           {| DT_Err := Some not_controller |} [] not_controller).
  - reflexivity.
  - reflexivity.
Defined.

Lemma newKafkaClient_sasl_is_plain_witness :
  exists ans,
    trace_of (run (lib := example_library) (scripted with_scram) (newKafkaClient []) 0%nat)
    = [Called _ (json_Unmarshal []) (scram_credentials, None);
       Called _ (kgo_NewClient
                   [kgo_SeedBrokers ["kafka:9092"];
                    kgo_SASL (plain_AsMechanism
                                {| User := "admin"; Pass := "secret" |})]) ans].
Proof.
  apply (newKafkaClient_sasl_is_plain
           (lib := example_library) (scripted with_scram) 0%nat 1%nat []
           scram_credentials
           {| Mechanism := "SCRAM-SHA-512"; Username := "admin"; Password := "secret" |}).
  - reflexivity.
  - reflexivity.
Defined.

Lemma not_a_Topic_is_rejected_witness :
  run (scripted quiet) (Observe an_external (ManagedOther (lib := example_library) "Secret")) 0%nat
  = (Returned ((ExternalObservation_zero, Some (errors_New errNotTopic)),
               ManagedOther "Secret"), 0%nat, []).
Proof.
  apply (not_a_Topic_is_rejected
           (scripted quiet) 0%nat (Setup_connector (kubeClient 0) (usageTracker 0) (logger 0))
           an_external (ManagedOther "Secret")).
  intros cr. discriminate.
Defined.

(** C6: when the listing call itself fails, Observe hands the library's
    error back as it is; that error is not an errors.Wrap of anything. *)
Lemma Observe_listing_error_is_not_wrapped :
  outcome_of (run (scripted listing_fails)
                (Observe an_external (ManagedTopic (orders 2 3))) 0%nat)
  = Returned ((ExternalObservation_zero, Some connection_refused),
              ManagedTopic (orders 2 3))
  /\ forall e msg, connection_refused <> errors_Wrap e msg.
Proof. split; [reflexivity | discriminate]. Qed.

Lemma library_errors_are_propagated_witness :
  outcome_of (run (scripted unparsable)
                (Connect a_connector (ManagedTopic (orders 2 3))) 0%nat)
  = Returned ((None,
               Some (errors_Wrap (errors_Wrap bad_json "cannot parse credentials")
                       errNewClient)),
              ManagedTopic (orders 2 3))
  /\ outcome_of (run (scripted listing_fails)
                   (Observe an_external (ManagedTopic (orders 2 3))) 0%nat)
     = Returned ((ExternalObservation_zero, Some connection_refused),
                 ManagedTopic (orders 2 3)).
Proof.
  split.
  - apply (proj1 (proj1 (library_errors_are_propagated
                           (scripted unparsable) 0%nat 1%nat an_external (orders 2 3))
                    (kubeClient 0) (usageTracker 0) (logger 0))
             3%nat
             (Called _ (json_Unmarshal [])
                ({| Brokers := []; SASL := None |}, Some bad_json))
             bad_json).
    + reflexivity.
    + reflexivity.
  - apply (proj1 (proj2 (library_errors_are_propagated
                           (scripted listing_fails) 0%nat 1%nat an_external
                           (orders 2 3)))
             ∅ connection_refused).
    reflexivity.
Defined.

(** C9: with zero partitions desired, a listed entry for the topic that
    has no partitions and carries the unknown-topic error is reported as
    not existing and not up to date. *)
Lemma Observe_unknown_topic_without_partitions :
  Partitions (ForProvider (Spec (orders 0 3))) = 0
  /\ (exists t, fst (on_List unknown_orders) !! "orders" = Some t
             /\ TD_Partitions t = [])
  /\ outcome_of (run (scripted unknown_orders)
                   (Observe an_external (ManagedTopic (orders 0 3))) 0%nat)
     = Returned (({| ResourceExists := false; ResourceUpToDate := false |}, None),
                 ManagedTopic (orders 0 3)).
Proof.
  split; [reflexivity|]. split.
  - eexists. split; reflexivity.
  - reflexivity.
Qed.

(** * The further properties at the example inputs *)

Lemma Observe_up_to_date_iff_witness :
  exists upToDate mg',
    outcome_of (run (scripted (listing [partition_with 3; partition_with 3]))
                  (Observe an_external (ManagedTopic (orders 2 3))) 0%nat)
    = Returned (({| ResourceExists := true; ResourceUpToDate := upToDate |}, None),
                mg')
    /\ (upToDate = true <->
        len [partition_with 3; partition_with 3] = 2
        /\ forall p0, head [partition_with 3; partition_with 3] = Some p0 ->
             len (Replicas p0) = 3).
Proof.
  eapply (Observe_up_to_date_iff
            (scripted (listing [partition_with 3; partition_with 3]))
            0%nat 1%nat an_external (orders 2 3) _
            {| TD_ID := []; TD_Partitions := [partition_with 3; partition_with 3];
               TD_Err := None |}).
  - reflexivity.
  - reflexivity.
  - reflexivity.
Defined.

Lemma Observe_error_is_listing_error_witness :
  exists obs mg',
    outcome_of (run (scripted listing_fails)
                  (Observe an_external (ManagedTopic (orders 2 3))) 0%nat)
    = Returned ((obs, Some connection_refused), mg').
Proof.
  eapply (Observe_error_is_listing_error
            (scripted listing_fails) 0%nat 1%nat an_external (orders 2 3) ∅).
  reflexivity.
Defined.

Lemma Observe_records_id_and_condition_witness :
  exists r cr',
    outcome_of (run (scripted (listing [partition_with 1]))
                  (Observe an_external (ManagedTopic (orders 2 3))) 0%nat)
    = Returned (r, ManagedTopic cr')
    /\ ID (AtProvider (Status cr')) = "0"
    /\ Conditions (Status cr') = ["Available"].
Proof.
  eapply (Observe_records_id_and_condition
            (scripted (listing [partition_with 1]))
            0%nat 1%nat an_external (orders 2 3) _
            {| TD_ID := []; TD_Partitions := [partition_with 1]; TD_Err := None |}).
  - reflexivity.
  - reflexivity.
  - reflexivity.
Defined.

Lemma Observe_again_same_result_witness :
  exists mg'',
    outcome_of (run (scripted (listing [partition_with 1]))
                  (Observe an_external
                     (ManagedTopic
                        (Status_SetConditions (set_AtProvider_ID (orders 2 3) "0")
                           ["Available"]))) 1%nat)
    = Returned (({| ResourceExists := true; ResourceUpToDate := false |}, None), mg'').
Proof.
  eapply (Observe_again_same_result
            (scripted (listing [partition_with 1])) 0%nat 1%nat an_external
            (orders 2 3)).
  - vm_compute. reflexivity.
  - reflexivity.
Defined.

Lemma Create_succeeds_iff_witness :
  outcome_of (run (scripted (with_Create quiet ([created], None)))
                (Create an_external (ManagedTopic (orders 2 3))) 0%nat)
  = Returned ((ExternalCreation_zero, None),
              ManagedTopic (set_AtProvider_ID (orders 2 3) "16")).
Proof.
  apply (proj1 (Create_succeeds_iff
                  (scripted (with_Create quiet ([created], None)))
                  0%nat 1%nat an_external (orders 2 3) [created] None eq_refl)
           created); reflexivity.
Defined.

Lemma Delete_outcome_witness :
  exists msg,
    outcome_of (run (scripted quiet) (Delete an_external (ManagedTopic (orders 2 3))) 0%nat)
    = Panicked msg.
Proof.
  apply (proj1 (Delete_outcome (scripted quiet) 0%nat 1%nat an_external
                  (orders 2 3) [] None eq_refl)).
  split; reflexivity.
Defined.

Lemma newKafkaClient_without_sasl_witness :
  exists ans,
    trace_of (run (lib := example_library) (scripted quiet) (newKafkaClient []) 0%nat)
    = [Called _ (json_Unmarshal [])
         ({| Brokers := ["kafka:9092"]; SASL := None |}, None);
       Called _ (kgo_NewClient [kgo_SeedBrokers ["kafka:9092"]]) ans].
Proof.
  apply (newKafkaClient_without_sasl
           (lib := example_library) (scripted quiet) 0%nat 1%nat []
           {| Brokers := ["kafka:9092"]; SASL := None |}).
  - reflexivity.
  - reflexivity.
Defined.

Lemma newKafkaClient_parse_failure_witness :
  run (lib := example_library) (scripted unparsable) (newKafkaClient []) 0%nat
  = (Returned (None, Some (errors_Wrap bad_json "cannot parse credentials")), 1%nat,
     [Called _ (json_Unmarshal []) ({| Brokers := []; SASL := None |}, Some bad_json)])
  /\ kafka_calls (trace_of (run (lib := example_library) (scripted unparsable)
                              (newKafkaClient []) 0%nat)) = [].
Proof.
  apply (newKafkaClient_parse_failure
           (lib := example_library) (scripted unparsable) 0%nat 1%nat []
           {| Brokers := []; SASL := None |} bad_json).
  reflexivity.
Defined.

Lemma Connect_succeeds_iff_no_library_error_witness :
  exists res err mg' w' tr,
    run (scripted quiet) (Connect a_connector (ManagedTopic (orders 2 3))) 0%nat
    = (Returned ((res, err), mg'), w', tr)
    /\ (err = None <-> library_errors tr = [])
    /\ (res = None <-> err <> None).
Proof.
  do 5 eexists. split.
  - vm_compute. reflexivity.
  - eapply (Connect_succeeds_iff_no_library_error
              (scripted quiet) 0%nat _ (kubeClient 0) (usageTracker 0) (logger 0)
              (orders 2 3)).
    vm_compute. reflexivity.
Defined.

Lemma Connect_success_client_witness :
  exists ext mg' w' tr,
    run (scripted quiet) (Connect a_connector (ManagedTopic (orders 2 3))) 0%nat
    = (Returned ((Some ext, None), mg'), w', tr)
    /\ exists c opts,
        last tr = Some (Called _ (kgo_NewClient opts) (c, None))
        /\ ext = {| kafkaClient := Some (kadm_NewClient c); ext_log := logger 0 |}
        /\ mg' = ManagedTopic (orders 2 3).
Proof.
  do 4 eexists. split.
  - vm_compute. reflexivity.
  - eapply (Connect_success_client
              (scripted quiet) 0%nat _ (kubeClient 0) (usageTracker 0) (logger 0)
              (orders 2 3)).
    vm_compute. reflexivity.
Defined.

Lemma Connect_calls_in_order_witness :
  length (trace_of (run (scripted unparsable)
                      (Connect a_connector (ManagedTopic (orders 2 3))) 0%nat))
  = 4%nat.
Proof.
  eapply (proj2 (Connect_calls_in_order
                   (scripted unparsable) 0%nat (kubeClient 0) (usageTracker 0)
                   (logger 0) (orders 2 3))
            3%nat _ bad_json).
  - vm_compute. reflexivity.
  - reflexivity.
Defined.

Lemma Connect_keeps_resource_witness :
  exists r mg',
    outcome_of (run (scripted quiet)
                  (Connect a_connector (ManagedTopic (orders 2 3))) 0%nat)
    = Returned (r, mg')
    /\ mg' = ManagedTopic (orders 2 3).
Proof.
  do 2 eexists. split.
  - vm_compute. reflexivity.
  - eapply (Connect_keeps_resource
              (scripted quiet) 0%nat a_connector (ManagedTopic (orders 2 3))).
    vm_compute. reflexivity.
Defined.

Lemma Observe_result_consistent_witness :
  exists obs err mg',
    outcome_of (run (scripted (listing [partition_with 3; partition_with 3]))
                  (Observe an_external (ManagedTopic (orders 2 3))) 0%nat)
    = Returned ((obs, err), mg')
    /\ ResourceUpToDate obs = true
    /\ ResourceExists obs = true /\ err = None.
Proof.
  exists {| ResourceExists := true; ResourceUpToDate := true |}, None,
         (ManagedTopic (Status_SetConditions (set_AtProvider_ID (orders 2 3) "0")
                          ["Available"])).
  split; [vm_compute; reflexivity|].
  split; [reflexivity|].
  apply (proj2 (Observe_result_consistent
                  (scripted (listing [partition_with 3; partition_with 3])) 0%nat
                  an_external (ManagedTopic (orders 2 3))
                  (ManagedTopic (Status_SetConditions
                                   (set_AtProvider_ID (orders 2 3) "0")
                                   ["Available"]))
                  {| ResourceExists := true; ResourceUpToDate := true |} None
                  ltac:(vm_compute; reflexivity))).
  reflexivity.
Defined.
